(** * Teacher portal: login, dashboard, exam authoring

    A shallow embedding of the three source files of the portal
    ([App.tsx], [pages/Dashboard.tsx], [pages/Login.tsx] together with the
    exam-creation page and the second router that travel in the same files)
    and the properties of its handlers, schemas and route guard.

    Conventions of the embedding:
    - a JavaScript string is a [string]; its [.length] is [String.length];
    - a JavaScript number is a [Js.number]: [NaN] or a finite rational
      (the comparisons the schemas make are exact on either reading);
    - [null]/[undefined] are [None];
    - an [async] handler is a computation in the state-and-exception monad
      [M] over the application state [World]; an [await] that rejects is a
      [Throw]; everything the user or the network can observe is appended to
      the [trace] of the world, oldest event first;
    - what the browser, the JavaScript runtime and the remote API answer is
      not part of the repository: it is the [Env] the handlers run in. *)

From Stdlib Require Import QArith.
From stdpp Require Import base list strings relations.

Local Open Scope string_scope.
Local Open Scope list_scope.
Local Close Scope Q_scope.
Local Open Scope nat_scope.

(** ** JavaScript values *)

Module Js.

(** A JavaScript number as the forms can produce it: [valueAsNumber] on an
    empty input and [Number] of a non-numeric string give [NaN]. *)
Inductive number : Type :=
| NaN
| Num (q : Q).

(** [a <= b] on numbers: every comparison with [NaN] is false. *)
Definition le (a b : number) : bool :=
  match a, b with
  | Num x, Num y => Qle_bool x y
  | _, _ => false
  end.

Definition of_Z (z : Z) : number := Num (inject_Z z).

(** Truthiness of a value of type [string | null]: [null] and the empty
    string are falsy. *)
Definition truthy (v : option string) : bool :=
  match v with
  | None => false
  | Some s => negb (String.eqb s "")
  end.

End Js.

(** ** The zod combinators the schemas are built from *)

Module Zod.

(** [z.string().min(n)] *)
Definition string_min (n : nat) (s : string) : bool :=
  n <=? String.length s.

(** [z.number()] refuses [NaN]. *)
Definition number (x : Js.number) : bool :=
  match x with
  | Js.NaN => false
  | Js.Num _ => true
  end.

(** [z.number().min(m)] *)
Definition number_min (m : Z) (x : Js.number) : bool :=
  number x && Js.le (Js.of_Z m) x.

(** [z.number().max(m)] *)
Definition number_max (m : Z) (x : Js.number) : bool :=
  number x && Js.le x (Js.of_Z m).

(** [z.array(item)] *)
Definition array {A : Type} (item : A → bool) (l : list A) : bool :=
  forallb item l.

(** [z.array(item).length(n)] *)
Definition array_length {A : Type} (item : A → bool) (n : nat)
    (l : list A) : bool :=
  array item l && (length l =? n).

(** [z.array(item).min(n)] *)
Definition array_min {A : Type} (item : A → bool) (n : nat)
    (l : list A) : bool :=
  array item l && (n <=? length l).

End Zod.

(** ** Data model *)

(** The identity the login answer carries. *)
Record User : Type := mkUser {
  user_name : string;
  role : string
}.

(** [interface Batch] of the dashboard. *)
Record Batch : Type := mkBatch {
  _id : string;
  name : string;
  code : string;
  students : list string
}.

(** An entry of the [FileList] of the file input. *)
Record File : Type := mkFile {
  file_name : string;
  size : N
}.

(** [LoginFormData = z.infer<typeof loginSchema>] *)
Record LoginFormData : Type := mkLoginFormData {
  email : string;
  password : string
}.

(** One element of [questions]. [correctIndex] and [marks] are the numbers
    [z.coerce.number()] obtains from the raw field. *)
Record Question : Type := mkQuestion {
  text : string;
  options : list string;
  correctIndex : Js.number;
  marks : Js.number
}.

(** [ExamFormValues = z.infer<typeof examSchema>] *)
Record ExamFormValues : Type := mkExamFormValues {
  title : string;
  batchId : string;
  startTime : string;
  duration : Js.number;
  pdfFile : option (list File);
  questions : list Question
}.

(** [const defaultQuestion] *)
Definition defaultQuestion : Question :=
  {| text := ""; options := ["";"";"";""];
     correctIndex := Js.of_Z 0; marks := Js.of_Z 1 |}.

(** ** The remote API, as the handlers see it *)

(** [POST /auth/login → {access_token, user}] *)
Record LoginResponse : Type := mkLoginResponse {
  access_token : string;
  user : User
}.

(** [POST /upload → {url}] *)
Record UploadResponse : Type := mkUploadResponse {
  url : string
}.

(** The object literal posted to [/exams]. *)
Module ExamBody.
Record t : Type := mk {
  title : string;
  batchId : string;
  durationMinutes : Js.number;
  startTime : string;
  resourcePdfUrl : string;
  questions : list Question
}.
End ExamBody.

(** Request payloads. *)
Inductive Body : Type :=
| LoginBody (data : LoginFormData)
| BatchBody (name : string)
| UploadBody (file : File)
| ExamBodyOf (b : ExamBody.t).

(** What a rejected [await] or a runtime exception carries. *)
Inductive Error : Type :=
| RequestFailed (url : string)
| RangeError.

(** Argument of [console.error]. *)
Inductive Logged : Type :=
| LogText (s : string)
| LogError (e : Error).

(** Observable effects. *)
Inductive Event : Type :=
| Alert (msg : string)
| Prompt (msg : string)
| ConsoleError (what : Logged)
| HttpGet (url : string)
| HttpPost (url : string) (body : Body)
| Navigate (to : string).

(** Everything outside the repository that the code calls: the JavaScript
    runtime ([Date], zod's e-mail pattern), the browser ([prompt]) and the
    backend behind [api]. A backend answer of [None] is a rejected request. *)
Record Env : Type := mkEnv {
  now : Z;
  parseDate : string → option Z;
  toISOString : Z → string;
  isEmail : string → bool;
  prompt : string → option string;
  post_auth_login : LoginFormData → option LoginResponse;
  get_batches : option (list Batch);
  post_batches : string → option Batch;
  post_upload : File → option UploadResponse;
  post_exams : ExamBody.t → option unit
}.

(** ** Application state *)

Module AuthStore.

(** Modelled from the spec: [store/authStore] is not among the sources; the
    specification describes it as a process-wide store "holding the current
    bearer token and user identity, with login/logout mutators". *)
Record state : Type := mk {
  token : option string;
  user : option User
}.

Definition empty : state := {| token := None; user := None |}.

Definition login (tok : string) (u : User) (_ : state) : state :=
  {| token := Some tok; user := Some u |}.

Definition logout (_ : state) : state := empty.

(** The store holds a token: a non-empty string. *)
Definition has_token (s : state) : Prop :=
  ∃ tok, token s = Some tok ∧ tok ≠ "".

End AuthStore.

(** The store, the router's location, the component states and the effects
    observed so far. *)
Record World : Type := mkWorld {
  auth : AuthStore.state;
  location : string;
  batches : list Batch;
  isSubmitting : bool;
  trace : list Event
}.

Definition emit (e : Event) (w : World) : World :=
  {| auth := auth w; location := location w; batches := batches w;
     isSubmitting := isSubmitting w; trace := trace w ++ [e] |}.

Definition with_auth (a : AuthStore.state) (w : World) : World :=
  {| auth := a; location := location w; batches := batches w;
     isSubmitting := isSubmitting w; trace := trace w |}.

Definition with_location (l : string) (w : World) : World :=
  {| auth := auth w; location := l; batches := batches w;
     isSubmitting := isSubmitting w; trace := trace w |}.

Definition with_batches (bs : list Batch) (w : World) : World :=
  {| auth := auth w; location := location w; batches := bs;
     isSubmitting := isSubmitting w; trace := trace w |}.

Definition with_isSubmitting (b : bool) (w : World) : World :=
  {| auth := auth w; location := location w; batches := batches w;
     isSubmitting := b; trace := trace w |}.

(** ** The monad of handlers *)

Module Eff.

Inductive Result (A : Type) : Type :=
| Ok (a : A)
| Throw (e : Error).
Arguments Ok {A} a.
Arguments Throw {A} e.

Definition M (A : Type) : Type := World → Result A * World.

Definition ret {A} (a : A) : M A := fun w => (Ok a, w).

Definition throw {A} (e : Error) : M A := fun w => (Throw e, w).

Definition bind {A B} (m : M A) (k : A → M B) : M B :=
  fun w =>
    match m w with
    | (Ok a, w') => k a w'
    | (Throw e, w') => (Throw e, w')
    end.

(** [try { body } catch (error) { handler error }] *)
Definition try_catch {A} (body : M A) (handler : Error → M A) : M A :=
  fun w =>
    match body w with
    | (Ok a, w') => (Ok a, w')
    | (Throw e, w') => handler e w'
    end.

(** [try { body } finally { cleanup }]: the cleanup runs on both exits and
    its own exception, if any, replaces the outcome of the body. *)
Definition finally {A} (body : M A) (cleanup : M unit) : M A :=
  fun w =>
    match body w with
    | (r, w') =>
        match cleanup w' with
        | (Ok _, w'') => (r, w'')
        | (Throw e, w'') => (Throw e, w'')
        end
    end.

(** Primitive effects. *)
Definition tell (e : Event) : M unit := fun w => (Ok tt, emit e w).

Definition modify (f : World → World) : M unit := fun w => (Ok tt, f w).

(** Resolve or reject with the backend's answer. *)
Definition settle {A} (failure : Error) (answer : option A) : M A :=
  match answer with
  | Some a => ret a
  | None => throw failure
  end.

End Eff.

Import Eff.

Notation "x <- m ;; k" := (bind m (fun x => k))
  (at level 100, m at next level, right associativity).
Notation "m ;; k" := (bind m (fun _ => k))
  (at level 100, right associativity).

(** Browser and library calls shared by the pages. *)

Definition alert (msg : string) : M unit := tell (Alert msg).

Definition console_error (what : Logged) : M unit := tell (ConsoleError what).

(** [navigate(to)] of [useNavigate]. *)
Definition navigate (to : string) : M unit :=
  tell (Navigate to) ;; modify (with_location to).

(** [api.get(url)] and [api.post(url, body)]: the request goes out, then the
    promise settles with the backend's answer. *)
Definition api_get {A} (url : string) (answer : option A) : M A :=
  tell (HttpGet url) ;; settle (RequestFailed url) answer.

Definition api_post {A} (url : string) (body : Body) (answer : option A) : M A :=
  tell (HttpPost url body) ;; settle (RequestFailed url) answer.

(** [handleSubmit(onSubmit)] of react-hook-form with a resolver: the handler
    is called with the form values only when the resolver reports no error;
    otherwise the errors are shown next to the fields and nothing else
    happens. *)
Definition handleSubmit {D} (resolver : D → bool) (onSubmit : D → M unit)
    (data : D) : M unit :=
  if resolver data then onSubmit data else ret tt.

(** ** pages/Login.tsx: the login page *)

Module Login.
Section WithEnv.

Context (env : Env).

(** [const loginSchema = z.object({ email: z.string().email(..),
    password: z.string().min(6, ..) })] *)
Definition loginSchema (data : LoginFormData) : bool :=
  isEmail env (email data) && Zod.string_min 6 (password data).

(** [useAuthStore((state) => state.login)] *)
Definition login (tok : string) (u : User) : M unit :=
  modify (fun w => with_auth (AuthStore.login tok u (auth w)) w).

(** [const onSubmit = async (data: LoginFormData) => { try {..} catch {..} }] *)
Definition onSubmit (data : LoginFormData) : M unit :=
  try_catch
    (res <- api_post "/auth/login" (LoginBody data) (post_auth_login env data) ;;
     if negb (String.eqb (role (user res)) "TEACHER") then
       alert "Access Denied: Student accounts cannot access the dashboard."
     else
       (login (access_token res) (user res) ;;
        navigate "/dashboard"))
    (fun _ => alert "Invalid Credentials").

(** [<form onSubmit={handleSubmit(onSubmit)}>] with
    [resolver: zodResolver(loginSchema)] *)
Definition submit : LoginFormData → M unit :=
  handleSubmit loginSchema onSubmit.

End WithEnv.
End Login.

(** ** The exam-creation page *)

Module CreateExam.
Section WithEnv.

Context (env : Env).

(** [(val) => new Date(val) > new Date()]: an unparsable string gives the
    Invalid Date, whose comparison is false. *)
Definition startTime_refine (val : string) : bool :=
  match parseDate env val with
  | Some t => (now env <? t)%Z
  | None => false
  end.

(** [(files) => !files || files.length === 0 || files[0].size <= 5000000] *)
Definition pdfFile_refine (files : option (list File)) : bool :=
  match files with
  | None => true
  | Some l =>
      (length l =? 0)
      || match l with
         | f :: _ => (size f <=? 5000000)%N
         | [] => false
         end
  end.

(** The element schema of [questions]. *)
Definition questionSchema (q : Question) : bool :=
  Zod.string_min 1 (text q)
  && Zod.array_length (Zod.string_min 1) 4 (options q)
  && (Zod.number_min 0 (correctIndex q) && Zod.number_max 3 (correctIndex q))
  && Zod.number_min 1 (marks q).

(** [const examSchema = z.object({..})] *)
Definition examSchema (data : ExamFormValues) : bool :=
  Zod.string_min 3 (title data)
  && Zod.string_min 1 (batchId data)
  && startTime_refine (startTime data)
  && Zod.number_min 5 (duration data)
  && pdfFile_refine (pdfFile data)
  && Zod.array_min questionSchema 1 (questions data).

Definition setBatches (bs : list Batch) : M unit := modify (with_batches bs).

Definition setIsSubmitting (b : bool) : M unit := modify (with_isSubmitting b).

(** [api.get('/batches').then((res) => setBatches(res.data)).catch(console.error)] *)
Definition loadBatches : M unit :=
  try_catch
    (bs <- api_get "/batches" (get_batches env) ;; setBatches bs)
    (fun e => console_error (LogError e)).

(** [new Date(data.startTime).toISOString()], which throws a [RangeError]
    on the Invalid Date. *)
Definition isoStartTime (val : string) : M string :=
  match parseDate env val with
  | Some t => ret (toISOString env t)
  | None => throw RangeError
  end.

(** The object literal of the second request. *)
Definition examBody (data : ExamFormValues) (iso resourcePdfUrl : string)
    : ExamBody.t :=
  {| ExamBody.title := title data;
     ExamBody.batchId := batchId data;
     ExamBody.durationMinutes := duration data;
     ExamBody.startTime := iso;
     ExamBody.resourcePdfUrl := resourcePdfUrl;
     ExamBody.questions := questions data |}.

(** Step A of the handler: [if (data.pdfFile && data.pdfFile.length > 0)]
    upload [data.pdfFile[0]] and take [uploadRes.data.url]; the initial
    value [''] stays otherwise. *)
Definition uploadPdf (files : option (list File)) : M string :=
  match files with
  | Some (f :: _) =>
      uploadRes <- api_post "/upload" (UploadBody f) (post_upload env f) ;;
      ret (url uploadRes)
  | _ => ret ""
  end.

(** [const onSubmit = async (data: ExamFormValues) => {..}] *)
Definition onSubmit (data : ExamFormValues) : M unit :=
  setIsSubmitting true ;;
  finally
    (try_catch
       (resourcePdfUrl <- uploadPdf (pdfFile data) ;;
        iso <- isoStartTime (startTime data) ;;
        let body := examBody data iso resourcePdfUrl in
        api_post "/exams" (ExamBodyOf body) (post_exams env body) ;;
        alert "Exam Created Successfully!" ;;
        navigate "/dashboard")
       (fun error =>
          console_error (LogError error) ;;
          alert "Failed to create exam. Please check your connection."))
    (setIsSubmitting false).

(** [<form onSubmit={handleSubmit(onSubmit)}>] with
    [resolver: zodResolver(examSchema)] *)
Definition submit : ExamFormValues → M unit :=
  handleSubmit examSchema onSubmit.

End WithEnv.

(** *** The form state and its controls *)

(** [defaultValues: { duration: 60, questions: [defaultQuestion] }]; the
    text inputs that have no default read as the empty string and the file
    input as no selection. *)
Definition defaultValues : ExamFormValues :=
  {| title := ""; batchId := ""; startTime := "";
     duration := Js.of_Z 60; pdfFile := None;
     questions := [defaultQuestion] |}.

(** [append] and [remove] of [useFieldArray({ control, name: "questions" })]:
    [append] adds at the end, [remove(i)] drops the entry at index [i]. *)
Definition append (q : Question) (fields : list Question) : list Question :=
  fields ++ [q].

Definition remove (qIndex : nat) (fields : list Question) : list Question :=
  delete qIndex fields.

(** The inputs and buttons of the form, with the value typed or chosen. *)
Inductive Control : Type :=
| TitleInput (v : string)
| BatchSelect (v : string)
| StartTimeInput (v : string)
| DurationInput (v : Js.number)
| PdfInput (files : list File)
| RemoveButton (qIndex : nat)
| QuestionTextInput (qIndex : nat) (v : string)
| CorrectRadio (qIndex oIndex : nat)
| OptionInput (qIndex oIndex : nat) (v : string)
| MarksInput (qIndex : nat) (v : Js.number)
| AddQuestionButton.

(** Which controls the JSX renders for the current question list: one block
    per entry of [fields], four radio/option pairs in each, the remove
    button under [fields.length > 1], and one "Add Question" button. *)
Definition rendered (fields : list Question) (c : Control) : bool :=
  match c with
  | TitleInput _ | BatchSelect _ | StartTimeInput _ | DurationInput _
  | PdfInput _ | AddQuestionButton => true
  | RemoveButton qIndex =>
      (qIndex <? length fields) && (1 <? length fields)
  | QuestionTextInput qIndex _ | MarksInput qIndex _ =>
      qIndex <? length fields
  | CorrectRadio qIndex oIndex | OptionInput qIndex oIndex _ =>
      (qIndex <? length fields) && (oIndex <? 4)
  end.

Definition set_questions (qs : list Question) (d : ExamFormValues)
    : ExamFormValues :=
  {| title := title d; batchId := batchId d; startTime := startTime d;
     duration := duration d; pdfFile := pdfFile d; questions := qs |}.

Definition edit_question (qIndex : nat) (f : Question → Question)
    (d : ExamFormValues) : ExamFormValues :=
  set_questions (alter f qIndex (questions d)) d.

(** The effect of using a control on the form values. *)
Definition fire (c : Control) (d : ExamFormValues) : ExamFormValues :=
  match c with
  | TitleInput v =>
      {| title := v; batchId := batchId d; startTime := startTime d;
         duration := duration d; pdfFile := pdfFile d;
         questions := questions d |}
  | BatchSelect v =>
      {| title := title d; batchId := v; startTime := startTime d;
         duration := duration d; pdfFile := pdfFile d;
         questions := questions d |}
  | StartTimeInput v =>
      {| title := title d; batchId := batchId d; startTime := v;
         duration := duration d; pdfFile := pdfFile d;
         questions := questions d |}
  | DurationInput v =>
      {| title := title d; batchId := batchId d; startTime := startTime d;
         duration := v; pdfFile := pdfFile d; questions := questions d |}
  | PdfInput files =>
      {| title := title d; batchId := batchId d; startTime := startTime d;
         duration := duration d; pdfFile := Some files;
         questions := questions d |}
  | RemoveButton qIndex =>
      set_questions (remove qIndex (questions d)) d
  | AddQuestionButton =>
      set_questions (append defaultQuestion (questions d)) d
  | QuestionTextInput qIndex v =>
      edit_question qIndex
        (fun q => {| text := v; options := options q;
                     correctIndex := correctIndex q; marks := marks q |}) d
  | CorrectRadio qIndex oIndex =>
      edit_question qIndex
        (fun q => {| text := text q; options := options q;
                     correctIndex := Js.of_Z (Z.of_nat oIndex);
                     marks := marks q |}) d
  | OptionInput qIndex oIndex v =>
      edit_question qIndex
        (fun q => {| text := text q; options := <[oIndex := v]> (options q);
                     correctIndex := correctIndex q; marks := marks q |}) d
  | MarksInput qIndex v =>
      edit_question qIndex
        (fun q => {| text := text q; options := options q;
                     correctIndex := correctIndex q; marks := v |}) d
  end.

(** One interaction: a control that is on the screen is used. *)
Inductive ui_step : ExamFormValues → ExamFormValues → Prop :=
| ui_fire (c : Control) (d : ExamFormValues) :
    rendered (questions d) c = true → ui_step d (fire c d).

(** The form values any sequence of interactions can lead to. *)
Definition reachable (d : ExamFormValues) : Prop :=
  rtc ui_step defaultValues d.

(** Replaying a list of interactions; [None] when one of them uses a
    control that is not on the screen at that moment. *)
Fixpoint play (cs : list Control) (d : ExamFormValues)
    : option ExamFormValues :=
  match cs with
  | [] => Some d
  | c :: cs' =>
      if rendered (questions d) c then play cs' (fire c d) else None
  end.

(** The question a control edits in place, if it is one of the inputs of a
    question block. *)
Definition edited (c : Control) : option nat :=
  match c with
  | QuestionTextInput qIndex _ | MarksInput qIndex _
  | CorrectRadio qIndex _ | OptionInput qIndex _ _ => Some qIndex
  | _ => None
  end.

(** *** What the form shows when validation fails *)

(** The message of a failed check: the text the schema or the JSX gives, or
    zod's own wording where the schema gives none. *)
Inductive Message : Type :=
| Text (s : string)
| BuiltIn.

(** [{errors.x && <p ..>{errors.x.message}</p>}]: nothing is rendered for a
    check that passed. *)
Definition shown (passed : bool) (m : Message) : list Message :=
  if passed then [] else [m].

(** [duration: z.number().min(5, "Duration must be at least 5 minutes")]:
    [NaN] fails [z.number()] itself, which has no message in the schema. *)
Definition durationMessage (x : Js.number) : Message :=
  if Zod.number x then Text "Duration must be at least 5 minutes"
  else BuiltIn.

(** The three messages of a question block: [errors.questions?.[qIndex]?.text],
    [..options] (a fixed sentence) and [..marks]. *)
Definition questionErrors (q : Question) : list Message :=
  shown (Zod.string_min 1 (text q)) (Text "Question text is required")
  ++ shown (Zod.array_length (Zod.string_min 1) 4 (options q))
       (Text "All 4 options are required.")
  ++ shown (Zod.number_min 1 (marks q)) BuiltIn.

(** Every error message the JSX of the exam page renders, top to bottom.
    There is no element for [errors.questions] itself (the list-level
    "At least one question is required") nor for [correctIndex]. *)
Definition shownErrors (env : Env) (d : ExamFormValues) : list Message :=
  shown (Zod.string_min 3 (title d))
    (Text "Title must be at least 3 characters")
  ++ shown (Zod.string_min 1 (batchId d)) (Text "Please select a batch")
  ++ shown (startTime_refine env (startTime d))
       (Text "Start time must be in the future")
  ++ shown (Zod.number_min 5 (duration d)) (durationMessage (duration d))
  ++ shown (pdfFile_refine (pdfFile d)) (Text "Max file size is 5MB")
  ++ flat_map questionErrors (questions d).

End CreateExam.

(** ** pages/Dashboard.tsx: the dashboard *)

Module Dashboard.
Section WithEnv.

Context (env : Env).

Definition setBatches (bs : list Batch) : M unit := modify (with_batches bs).

(** [const fetchBatches = async () => { try {..} catch {..} }] *)
Definition fetchBatches : M unit :=
  try_catch
    (res <- api_get "/batches" (get_batches env) ;; setBatches res)
    (fun _ => console_error (LogText "Failed to fetch batches")).


Definition promptMessage : string := "Enter Batch Name (e.g., 2026 Revision):".

(** [const createBatch = async () => {..}]. [if (!name) return;] leaves on
    [null] (the prompt was cancelled) and on the empty string. The call
    [fetchBatches()] is not awaited, but nothing follows it in the
    handler, so its effects come after the request of [createBatch] in
    any case. *)
Definition createBatch : M unit :=
  tell (Prompt promptMessage) ;;
  match prompt env promptMessage with
  | None => ret tt
  | Some name =>
      if negb (Js.truthy (Some name)) then ret tt
      else
        (api_post "/batches" (BatchBody name) (post_batches env name) ;;
         fetchBatches)
  end.

(** [useAuthStore((state) => state.logout)] *)
Definition logout : M unit :=
  modify (fun w => with_auth (AuthStore.logout (auth w)) w).

(** [onClick={() => navigate('/create-exam')}] of the "New Exam" button *)
Definition newExam : M unit := navigate "/create-exam".

End WithEnv.
End Dashboard.

(** ** App.tsx: routes and the route guard *)

Module Router.

Inductive Page : Type :=
| LoginPage
| DashboardPage
| CreateExamPage.

(** What a route renders: a page, or [<Navigate to=.. replace />]. *)
Inductive Element : Type :=
| Render (p : Page)
| NavigateTo (to : string).

(** [function ProtectedRoute({ children })]:
    [return token ? <>{children}</> : <Navigate to="/login" replace />] *)
Definition ProtectedRoute (store : AuthStore.state) (children : Element)
    : Element :=
  if Js.truthy (AuthStore.token store) then children
  else NavigateTo "/login".

(** [App] as [App.tsx] has it: the dashboard is the one guarded screen. *)
Definition App (store : AuthStore.state) (path : string) : Element :=
  if String.eqb path "/login" then Render LoginPage
  else if String.eqb path "/dashboard" then
    ProtectedRoute store (Render DashboardPage)
  else NavigateTo "/dashboard".

(** [App] with the exam-creation route added. *)
Definition AppWithCreateExam (store : AuthStore.state) (path : string)
    : Element :=
  if String.eqb path "/login" then Render LoginPage
  else if String.eqb path "/dashboard" then
    ProtectedRoute store (Render DashboardPage)
  else if String.eqb path "/create-exam" then
    ProtectedRoute store (Render CreateExamPage)
  else NavigateTo "/dashboard".

(** Following the [Navigate] elements until a page is shown. *)
Fixpoint show (app : string → Element) (fuel : nat) (path : string)
    : option (string * Page) :=
  match app path with
  | Render p => Some (path, p)
  | NavigateTo to =>
      match fuel with
      | 0 => None
      | S fuel' => show app fuel' to
      end
  end.

End Router.

(** ** The constraints in the words of the specification *)

Module Spec.

(** "a number that is at least [lo]" *)
Definition at_least (lo : Z) (x : Js.number) : Prop :=
  ∃ q, x = Js.Num q ∧ (inject_Z lo <= q)%Q.

(** "a number between [lo] and [hi] inclusive" *)
Definition between (lo hi : Z) (x : Js.number) : Prop :=
  ∃ q, x = Js.Num q ∧ (inject_Z lo <= q)%Q ∧ (q <= inject_Z hi)%Q.

(** "text, exactly four option strings, an index marking the correct
    option, a point value" *)
Definition question_wellformed (q : Question) : Prop :=
  text q ≠ ""
  ∧ length (options q) = 4
  ∧ Forall (fun o => o ≠ "") (options q)
  ∧ between 0 3 (correctIndex q)
  ∧ at_least 1 (marks q).

(** "start time strictly in the future" *)
Definition strictly_future (env : Env) (val : string) : Prop :=
  ∃ t, parseDate env val = Some t ∧ (now env < t)%Z.

(** The attachment is absent, the selection is empty, or the selected file
    has at most 5,000,000 bytes. *)
Definition pdf_within_limit (files : option (list File)) : Prop :=
  match files with
  | None | Some [] => True
  | Some (f :: _) => (size f <= 5000000)%N
  end.

(** "minimum lengths, future start time, question count ≥ 1, options
    count = 4" *)
Definition exam_constraints (env : Env) (d : ExamFormValues) : Prop :=
  3 ≤ String.length (title d)
  ∧ 1 ≤ String.length (batchId d)
  ∧ strictly_future env (startTime d)
  ∧ at_least 5 (duration d)
  ∧ pdf_within_limit (pdfFile d)
  ∧ 1 ≤ length (questions d)
  ∧ Forall question_wellformed (questions d).

(** "form rejects invalid email/short password" *)
Definition login_constraints (env : Env) (d : LoginFormData) : Prop :=
  isEmail env (email d) = true ∧ 6 ≤ String.length (password d).

End Spec.

(** ** Reading a trace *)

Definition is_post_to (target : string) (e : Event) : bool :=
  match e with
  | HttpPost u _ => String.eqb u target
  | _ => false
  end.

Definition is_request (e : Event) : bool :=
  match e with
  | HttpGet _ | HttpPost _ _ => true
  | _ => false
  end.

Definition is_alert (e : Event) : bool :=
  match e with
  | Alert _ => true
  | _ => false
  end.

(** The effects of the exam page once the answer to [POST /exams] is in:
    the success alert and the way back to the dashboard, or the console
    trace and the failure alert. *)
Definition after_exam_request (answer : option unit) : list Event :=
  match answer with
  | Some _ => [Alert "Exam Created Successfully!"; Navigate "/dashboard"]
  | None =>
      [ConsoleError (LogError (RequestFailed "/exams"));
       Alert "Failed to create exam. Please check your connection."]
  end.

(** Number of [POST target] requests in a trace. *)
Definition posts_to (target : string) (tr : list Event) : nat :=
  length (List.filter (is_post_to target) tr).

(** ** A concrete environment and concrete inputs *)

Module Sample.

Definition teacher : User := {| user_name := "Ada"; role := "TEACHER" |}.
Definition student : User := {| user_name := "Bob"; role := "STUDENT" |}.

Definition paper : File := {| file_name := "paper.pdf"; size := 120000 |}.

Definition class10 : Batch :=
  {| _id := "b1"; name := "2026 Revision"; code := "REV26";
     students := ["s1"; "s2"] |}.

(** A runtime whose clock reads 1 000 and which parses exactly two
    date strings, and a backend that accepts every request. *)
Definition env : Env :=
  {| now := 1000;
     parseDate := fun s =>
       if String.eqb s "2030-01-01T10:00" then Some 2000%Z
       else if String.eqb s "2020-01-01T10:00" then Some 500%Z
       else None;
     toISOString := fun t =>
       if (t =? 2000)%Z then "2030-01-01T10:00:00.000Z"
       else "2020-01-01T10:00:00.000Z";
     isEmail := fun s => String.eqb s "ada@school.org";
     prompt := fun _ => Some "2026 Revision";
     post_auth_login := fun d =>
       Some {| access_token := "tok-1";
               user := if String.eqb (email d) "ada@school.org"
                       then teacher else student |};
     get_batches := Some [class10];
     post_batches := fun _ => Some class10;
     post_upload := fun _ => Some {| url := "https://files/paper.pdf" |};
     post_exams := fun _ => Some tt |}.

(** The same runtime with a backend that rejects every request, and a
    user who cancels the prompt. *)
Definition offline : Env :=
  {| now := now env; parseDate := parseDate env;
     toISOString := toISOString env; isEmail := isEmail env;
     prompt := prompt env;
     post_auth_login := fun _ => None;
     get_batches := None;
     post_batches := fun _ => None;
     post_upload := fun _ => None;
     post_exams := fun _ => None |}.

(** Only the file storage is down. *)
Definition upload_down : Env :=
  {| now := now env; parseDate := parseDate env;
     toISOString := toISOString env; isEmail := isEmail env;
     prompt := prompt env;
     post_auth_login := post_auth_login env;
     get_batches := get_batches env;
     post_batches := post_batches env;
     post_upload := fun _ => None;
     post_exams := post_exams env |}.

Definition cancelling : Env :=
  {| now := now env; parseDate := parseDate env;
     toISOString := toISOString env; isEmail := isEmail env;
     prompt := fun _ => None;
     post_auth_login := post_auth_login env;
     get_batches := get_batches env;
     post_batches := post_batches env;
     post_upload := post_upload env;
     post_exams := post_exams env |}.

Definition credentials : LoginFormData :=
  {| email := "ada@school.org"; password := "secret1" |}.

Definition question : Question :=
  {| text := "2 + 2 = ?"; options := ["3"; "4"; "5"; "6"];
     correctIndex := Js.of_Z 1; marks := Js.of_Z 2 |}.

Definition exam : ExamFormValues :=
  {| title := "Unit 5"; batchId := "b1"; startTime := "2030-01-01T10:00";
     duration := Js.of_Z 60; pdfFile := Some [paper];
     questions := [question] |}.

Definition exam_without_pdf : ExamFormValues :=
  {| title := "Unit 5"; batchId := "b1"; startTime := "2030-01-01T10:00";
     duration := Js.of_Z 60; pdfFile := Some [];
     questions := [question] |}.

Definition exam_in_the_past : ExamFormValues :=
  {| title := "Unit 5"; batchId := "b1"; startTime := "2020-01-01T10:00";
     duration := Js.of_Z 60; pdfFile := None;
     questions := [question] |}.

(** Add a question, fill it in, delete the first one. *)
Definition clicks : list CreateExam.Control :=
  [CreateExam.AddQuestionButton;
   CreateExam.QuestionTextInput 1 "2 + 2 = ?";
   CreateExam.OptionInput 1 1 "4";
   CreateExam.CorrectRadio 1 1;
   CreateExam.RemoveButton 0].

Definition world : World :=
  {| auth := AuthStore.empty; location := "/login"; batches := [];
     isSubmitting := false; trace := [] |}.

End Sample.

(** ** Proof automation *)

(** Unfold the monad and the primitive effects of a handler. *)
Ltac run :=
  unfold api_post, api_get, alert, console_error, navigate, settle, tell,
    modify, bind, try_catch, finally, ret, throw;
  simpl.

(** Close a goal that differs only in how the trace is parenthesised. *)
Ltac same_trace :=
  unfold emit, with_auth, with_location, with_batches, with_isSubmitting;
  simpl; rewrite <- ?app_assoc; simpl; reflexivity.

(** * Properties *)

(** ** The handlers on concrete inputs *)

Example student_is_turned_away :
  Login.onSubmit Sample.env
    {| email := "bob@school.org"; password := "secret2" |} Sample.world
  = (Ok tt,
     {| auth := AuthStore.empty; location := "/login"; batches := [];
        isSubmitting := false;
        trace :=
          [HttpPost "/auth/login"
             (LoginBody {| email := "bob@school.org"; password := "secret2" |});
           Alert "Access Denied: Student accounts cannot access the dashboard."]
     |}).
Proof. reflexivity. Qed.

Example exam_without_pdf_is_posted_directly :
  trace (CreateExam.submit Sample.env Sample.exam_without_pdf Sample.world).2
  = [HttpPost "/exams"
       (ExamBodyOf
          {| ExamBody.title := "Unit 5"; ExamBody.batchId := "b1";
             ExamBody.durationMinutes := Js.of_Z 60;
             ExamBody.startTime := "2030-01-01T10:00:00.000Z";
             ExamBody.resourcePdfUrl := "";
             ExamBody.questions := [Sample.question] |});
     Alert "Exam Created Successfully!";
     Navigate "/dashboard"].
Proof. reflexivity. Qed.

Example default_question_is_not_valid :
  CreateExam.questionSchema defaultQuestion = false.
Proof. reflexivity. Qed.

Example fractional_index_is_accepted :
  CreateExam.questionSchema
    {| text := "q"; options := ["a"; "b"; "c"; "d"];
       correctIndex := Js.Num (3 # 2); marks := Js.of_Z 1 |} = true.
Proof. reflexivity. Qed.

Example refused_batch_rejects_the_handler :
  (Dashboard.createBatch Sample.offline Sample.world).1
  = Throw (RequestFailed "/batches").
Proof. reflexivity. Qed.

Example replayed_clicks :
  questions <$> CreateExam.play Sample.clicks CreateExam.defaultValues
  = Some [{| text := "2 + 2 = ?"; options := [""; "4"; ""; ""];
             correctIndex := Js.of_Z 1; marks := Js.of_Z 1 |}].
Proof. reflexivity. Qed.

Example remove_is_hidden_on_a_single_question :
  CreateExam.play [CreateExam.RemoveButton 0] CreateExam.defaultValues = None.
Proof. reflexivity. Qed.

(** ** The schemas decide the constraints *)

Lemma string_min_spec (n : nat) (s : string) :
  Zod.string_min n s = true ↔ n ≤ String.length s.
Proof. unfold Zod.string_min. apply Nat.leb_le. Qed.

Lemma string_min_1_nonempty (s : string) :
  Zod.string_min 1 s = true ↔ s ≠ "".
Proof.
  rewrite string_min_spec. destruct s as [|c s]; simpl.
  - split; [lia | congruence].
  - split; [discriminate | lia].
Qed.

Lemma number_min_spec (m : Z) (x : Js.number) :
  Zod.number_min m x = true ↔ Spec.at_least m x.
Proof.
  unfold Zod.number_min, Spec.at_least. destruct x as [|q]; simpl.
  - split; [discriminate | intros (q & Hq & _); discriminate].
  - rewrite Qle_bool_iff. split.
    + intros Hle. exists q. auto.
    + intros (q' & Hq & Hle). injection Hq as ->. exact Hle.
Qed.

Lemma number_max_spec (m : Z) (x : Js.number) :
  Zod.number_max m x = true ↔ ∃ q, x = Js.Num q ∧ (q <= inject_Z m)%Q.
Proof.
  unfold Zod.number_max. destruct x as [|q]; simpl.
  - split; [discriminate | intros (q & Hq & _); discriminate].
  - rewrite Qle_bool_iff. split.
    + intros Hle. exists q. auto.
    + intros (q' & Hq & Hle). injection Hq as ->. exact Hle.
Qed.

Lemma number_range_spec (lo hi : Z) (x : Js.number) :
  Zod.number_min lo x && Zod.number_max hi x = true ↔ Spec.between lo hi x.
Proof.
  rewrite andb_true_iff, number_min_spec, number_max_spec.
  unfold Spec.at_least, Spec.between. split.
  - intros [(q & -> & Hlo) (q' & Hq & Hhi)]. injection Hq as <-.
    exists q. auto.
  - intros (q & -> & Hlo & Hhi). split; exists q; auto.
Qed.

Lemma array_spec {A} (item : A → bool) (P : A → Prop) (l : list A) :
  (∀ a, item a = true ↔ P a) →
  Zod.array item l = true ↔ Forall P l.
Proof.
  intros Hitem. unfold Zod.array.
  induction l as [|a l IH]; simpl.
  - split; [constructor | reflexivity].
  - rewrite andb_true_iff, Forall_cons, Hitem, IH. reflexivity.
Qed.

Lemma questionSchema_spec (q : Question) :
  CreateExam.questionSchema q = true ↔ Spec.question_wellformed q.
Proof.
  unfold CreateExam.questionSchema, Spec.question_wellformed,
    Zod.array_length.
  pose proof (number_range_spec 0 3 (correctIndex q)) as Hrange.
  rewrite andb_true_iff in Hrange.
  rewrite !andb_true_iff, string_min_1_nonempty, Hrange, number_min_spec,
    Nat.eqb_eq.
  rewrite (array_spec _ (fun o => o ≠ "")) by apply string_min_1_nonempty.
  tauto.
Qed.

Lemma startTime_refine_spec (env : Env) (val : string) :
  CreateExam.startTime_refine env val = true ↔ Spec.strictly_future env val.
Proof.
  unfold CreateExam.startTime_refine, Spec.strictly_future.
  destruct (parseDate env val) as [t|].
  - rewrite Z.ltb_lt. split.
    + intros Hlt. exists t. auto.
    + intros (t' & Ht & Hlt). injection Ht as ->. exact Hlt.
  - split; [discriminate | intros (t & Ht & _); discriminate].
Qed.

Lemma pdfFile_refine_spec (files : option (list File)) :
  CreateExam.pdfFile_refine files = true ↔ Spec.pdf_within_limit files.
Proof.
  destruct files as [[|f rest]|]; simpl; try tauto.
  apply N.leb_le.
Qed.

Lemma examSchema_spec (env : Env) (d : ExamFormValues) :
  CreateExam.examSchema env d = true ↔ Spec.exam_constraints env d.
Proof.
  unfold CreateExam.examSchema, Spec.exam_constraints, Zod.array_min.
  rewrite !andb_true_iff, !string_min_spec, startTime_refine_spec,
    number_min_spec, pdfFile_refine_spec, Nat.leb_le.
  rewrite (array_spec _ Spec.question_wellformed) by apply questionSchema_spec.
  tauto.
Qed.

Lemma loginSchema_spec (env : Env) (d : LoginFormData) :
  Login.loginSchema env d = true ↔ Spec.login_constraints env d.
Proof.
  unfold Login.loginSchema, Spec.login_constraints.
  rewrite andb_true_iff, string_min_spec. reflexivity.
Qed.

(** ** Running handlers *)

Lemma emit_emit_trace (a b : Event) (w : World) :
  trace (emit b (emit a w)) = trace w ++ [a; b].
Proof. simpl. rewrite <- app_assoc. reflexivity. Qed.

Lemma handleSubmit_rejected {D} (resolver : D → bool) (onSubmit : D → M unit)
    (data : D) (w : World) :
  resolver data = false → handleSubmit resolver onSubmit data w = (Ok tt, w).
Proof. intros H. unfold handleSubmit. rewrite H. reflexivity. Qed.

Lemma handleSubmit_accepted {D} (resolver : D → bool) (onSubmit : D → M unit)
    (data : D) :
  resolver data = true → handleSubmit resolver onSubmit data = onSubmit data.
Proof. intros H. unfold handleSubmit. rewrite H. reflexivity. Qed.

(** ** The login page *)

(** The two ways [Login.onSubmit] ends once the backend has answered. *)
Lemma login_onSubmit_denied (env : Env) (data : LoginFormData)
    (res : LoginResponse) (w : World) :
  post_auth_login env data = Some res →
  role (user res) ≠ "TEACHER" →
  Login.onSubmit env data w =
    (Ok tt,
     emit (Alert "Access Denied: Student accounts cannot access the dashboard.")
       (emit (HttpPost "/auth/login" (LoginBody data)) w)).
Proof.
  intros Hres Hrole. unfold Login.onSubmit. run. rewrite Hres. simpl.
  apply String.eqb_neq in Hrole. rewrite Hrole. reflexivity.
Qed.

Lemma login_onSubmit_admitted (env : Env) (data : LoginFormData)
    (res : LoginResponse) (w : World) :
  post_auth_login env data = Some res →
  role (user res) = "TEACHER" →
  Login.onSubmit env data w =
    (Ok tt,
     with_location "/dashboard"
       (emit (Navigate "/dashboard")
          (with_auth (AuthStore.login (access_token res) (user res) (auth w))
             (emit (HttpPost "/auth/login" (LoginBody data)) w)))).
Proof.
  intros Hres Hrole. unfold Login.onSubmit, Login.login. run.
  rewrite Hres. simpl. rewrite Hrole. reflexivity.
Qed.

Lemma login_onSubmit_failed (env : Env) (data : LoginFormData) (w : World) :
  post_auth_login env data = None →
  Login.onSubmit env data w =
    (Ok tt,
     emit (Alert "Invalid Credentials")
       (emit (HttpPost "/auth/login" (LoginBody data)) w)).
Proof.
  intros Hres. unfold Login.onSubmit. run. rewrite Hres. reflexivity.
Qed.

(** The comparison with ['TEACHER'] is exact: the same word in lower case
    is turned away. *)
Lemma login_role_is_case_sensitive (env : Env) (data : LoginFormData)
    (res : LoginResponse) (w : World) :
  post_auth_login env data = Some res →
  role (user res) = "teacher" →
  auth (Login.onSubmit env data w).2 = auth w.
Proof.
  intros Hres Hrole.
  rewrite (login_onSubmit_denied env data res w Hres)
    by (rewrite Hrole; discriminate).
  reflexivity.
Qed.

(** C1: for every answer to the login request, a user whose role is not the
    teacher role (['TEACHER']) gets the access-denied alert, the auth store
    keeps its content and the location does not change (the only effects are
    the request and the alert); a user with the teacher role has the returned
    token and user stored and is taken to [/dashboard]. *)
Theorem login_admits_teachers_only (env : Env) (data : LoginFormData)
    (res : LoginResponse) (w : World) :
  post_auth_login env data = Some res →
  (role (user res) ≠ "TEACHER" →
     trace (Login.onSubmit env data w).2 =
       trace w ++
       [HttpPost "/auth/login" (LoginBody data);
        Alert "Access Denied: Student accounts cannot access the dashboard."]
     ∧ auth (Login.onSubmit env data w).2 = auth w
     ∧ location (Login.onSubmit env data w).2 = location w)
  ∧ (role (user res) = "TEACHER" →
     AuthStore.token (auth (Login.onSubmit env data w).2)
       = Some (access_token res)
     ∧ AuthStore.user (auth (Login.onSubmit env data w).2) = Some (user res)
     ∧ location (Login.onSubmit env data w).2 = "/dashboard"
     ∧ trace (Login.onSubmit env data w).2 =
         trace w ++
         [HttpPost "/auth/login" (LoginBody data); Navigate "/dashboard"]).
Proof.
  intros Hres. split; intros Hrole.
  - rewrite (login_onSubmit_denied env data res w Hres Hrole).
    split; [apply emit_emit_trace | split; reflexivity].
  - rewrite (login_onSubmit_admitted env data res w Hres Hrole).
    repeat split. simpl. rewrite <- app_assoc. reflexivity.
Qed.

Lemma login_admits_teachers_only_witness :
  AuthStore.token
    (auth (Login.onSubmit Sample.env Sample.credentials Sample.world).2)
  = Some "tok-1"
  ∧ location (Login.onSubmit Sample.env Sample.credentials Sample.world).2
    = "/dashboard".
Proof.
  pose proof (login_admits_teachers_only Sample.env Sample.credentials
                {| access_token := "tok-1"; user := Sample.teacher |}
                Sample.world eq_refl) as [_ Hteacher].
  destruct (Hteacher eq_refl) as (Htok & _ & Hloc & _).
  split; [exact Htok | exact Hloc].
Defined.

(** C7: the login form is refused, and nothing is sent, whenever the e-mail
    field fails the e-mail format check or the password has fewer than six
    characters; when both constraints hold the form passes and the submit
    handler runs. *)
Theorem login_form_validation (env : Env) (d : LoginFormData) :
  (isEmail env (email d) = false ∨ String.length (password d) < 6 →
     Login.loginSchema env d = false
     ∧ ∀ w, Login.submit env d w = (Ok tt, w))
  ∧ (isEmail env (email d) = true → 6 ≤ String.length (password d) →
     Login.loginSchema env d = true
     ∧ Login.submit env d = Login.onSubmit env d).
Proof.
  split.
  - intros Hbad.
    assert (Login.loginSchema env d = false) as Hrej.
    { apply not_true_is_false. rewrite loginSchema_spec.
      unfold Spec.login_constraints. intros [Hmail Hpw].
      destruct Hbad as [Hbad | Hbad]; [congruence | lia]. }
    split; [exact Hrej |].
    intros w. apply handleSubmit_rejected, Hrej.
  - intros Hmail Hpw.
    assert (Login.loginSchema env d = true) as Hacc.
    { apply loginSchema_spec. split; assumption. }
    split; [exact Hacc |].
    apply handleSubmit_accepted, Hacc.
Qed.

Lemma login_form_validation_witness :
  Login.loginSchema Sample.env Sample.credentials = true
  ∧ Login.loginSchema Sample.env {| email := "ada"; password := "secret1" |}
    = false.
Proof.
  split.
  - apply (proj2 (login_form_validation Sample.env Sample.credentials));
      [reflexivity | simpl; lia].
  - apply (proj1 (login_form_validation Sample.env
                    {| email := "ada"; password := "secret1" |})).
    left. reflexivity.
Defined.

(** ** The exam form: validation *)

(** C3: the exam form is refused, and no request goes out, whenever the start
    time is not strictly in the future, some question has an options list
    whose length is not 4, or there is no question; a form that satisfies
    all the constraints of the schema is accepted and handed to the submit
    handler. *)
Theorem exam_form_validation (env : Env) (d : ExamFormValues) :
  (¬ Spec.strictly_future env (startTime d)
   ∨ (∃ q, q ∈ questions d ∧ length (options q) ≠ 4)
   ∨ questions d = [] →
     CreateExam.examSchema env d = false
     ∧ ∀ w, CreateExam.submit env d w = (Ok tt, w))
  ∧ (Spec.exam_constraints env d →
     CreateExam.examSchema env d = true
     ∧ CreateExam.submit env d = CreateExam.onSubmit env d).
Proof.
  split.
  - intros Hbad.
    assert (CreateExam.examSchema env d = false) as Hrej.
    { apply not_true_is_false. rewrite examSchema_spec.
      intros (_ & _ & Hstart & _ & _ & Hcount & Hall).
      destruct Hbad as [Hpast | [(q & Hin & Hlen) | Hnone]].
      - exact (Hpast Hstart).
      - rewrite Forall_forall in Hall.
        destruct (Hall q Hin) as (_ & Hfour & _). exact (Hlen Hfour).
      - rewrite Hnone in Hcount. simpl in Hcount. lia. }
    split; [exact Hrej |].
    intros w. apply handleSubmit_rejected, Hrej.
  - intros Hok.
    assert (CreateExam.examSchema env d = true) as Hacc
      by (apply examSchema_spec, Hok).
    split; [exact Hacc |].
    apply handleSubmit_accepted, Hacc.
Qed.

Lemma exam_form_validation_witness :
  CreateExam.examSchema Sample.env Sample.exam_in_the_past = false
  ∧ CreateExam.examSchema Sample.env Sample.exam = true.
Proof.
  split.
  - apply (proj1 (exam_form_validation Sample.env Sample.exam_in_the_past)).
    left. intros (t & Ht & Hlt). simpl in Ht. injection Ht as <-.
    simpl in Hlt. lia.
  - apply (proj2 (exam_form_validation Sample.env Sample.exam)).
    apply examSchema_spec. reflexivity.
Defined.

(** C6: every question of a validated exam form has a non-empty text,
    exactly four options, none of them empty, a correct-option index that
    is a number between 0 and 3 inclusive, and a point value of at least
    1. *)
Theorem validated_questions_wellformed (env : Env) (d : ExamFormValues)
    (q : Question) :
  CreateExam.examSchema env d = true →
  q ∈ questions d →
  text q ≠ ""
  ∧ length (options q) = 4
  ∧ (∀ o, o ∈ options q → o ≠ "")
  ∧ Spec.between 0 3 (correctIndex q)
  ∧ Spec.at_least 1 (marks q).
Proof.
  intros Hacc Hin.
  apply examSchema_spec in Hacc.
  destruct Hacc as (_ & _ & _ & _ & _ & _ & Hall).
  rewrite Forall_forall in Hall.
  destruct (Hall q Hin) as (Htext & Hfour & Hopts & Hidx & Hmarks).
  rewrite Forall_forall in Hopts. auto.
Qed.

Lemma validated_questions_wellformed_witness :
  length (options Sample.question) = 4
  ∧ Spec.between 0 3 (correctIndex Sample.question).
Proof.
  destruct (validated_questions_wellformed Sample.env Sample.exam
              Sample.question eq_refl (list_elem_of_here _ _))
    as (_ & Hfour & _ & Hidx & _).
  split; [exact Hfour | exact Hidx].
Defined.

(** C10: the attachment field passes when it is absent or the selection is
    empty; with a file selected it passes exactly when the size of that file
    is at most 5,000,000 bytes. *)
Theorem pdf_attachment_validation :
  CreateExam.pdfFile_refine None = true
  ∧ CreateExam.pdfFile_refine (Some []) = true
  ∧ ∀ (f : File) (rest : list File),
      CreateExam.pdfFile_refine (Some (f :: rest)) = true
      ↔ (size f ≤ 5000000)%N.
Proof.
  split; [reflexivity | split; [reflexivity |]].
  intros f rest. simpl. apply N.leb_le.
Qed.

Lemma pdf_attachment_validation_witness :
  CreateExam.pdfFile_refine (Some [Sample.paper]) = true.
Proof.
  destruct pdf_attachment_validation as (_ & _ & Hfile).
  apply Hfile. simpl. lia.
Defined.

(** ** The exam form: submission *)

(** Step A: what the upload step leaves behind. *)
Lemma uploadPdf_no_file (env : Env) (files : option (list File)) (w : World) :
  files = None ∨ files = Some [] →
  CreateExam.uploadPdf env files w = (Ok "", w).
Proof. intros [-> | ->]; reflexivity. Qed.

Lemma uploadPdf_done (env : Env) (f : File) (rest : list File)
    (up : UploadResponse) (w : World) :
  post_upload env f = Some up →
  CreateExam.uploadPdf env (Some (f :: rest)) w
  = (Ok (url up), emit (HttpPost "/upload" (UploadBody f)) w).
Proof. intros Hup. unfold CreateExam.uploadPdf. run. rewrite Hup. reflexivity. Qed.

Lemma uploadPdf_failed (env : Env) (f : File) (rest : list File) (w : World) :
  post_upload env f = None →
  CreateExam.uploadPdf env (Some (f :: rest)) w
  = (Throw (RequestFailed "/upload"),
     emit (HttpPost "/upload" (UploadBody f)) w).
Proof. intros Hup. unfold CreateExam.uploadPdf. run. rewrite Hup. reflexivity. Qed.

(** The handler, given how step A ended. *)
Lemma exam_onSubmit_upload_failed (env : Env) (data : ExamFormValues)
    (e : Error) (w w1 : World) :
  CreateExam.uploadPdf env (pdfFile data) (with_isSubmitting true w)
    = (Throw e, w1) →
  CreateExam.onSubmit env data w
  = (Ok tt,
     with_isSubmitting false
       (emit (Alert "Failed to create exam. Please check your connection.")
          (emit (ConsoleError (LogError e)) w1))).
Proof.
  intros Hup. unfold CreateExam.onSubmit, CreateExam.setIsSubmitting.
  unfold bind at 1. simpl. unfold finally, try_catch.
  unfold bind at 1. rewrite Hup. reflexivity.
Qed.

Lemma exam_onSubmit_uploaded (env : Env) (data : ExamFormValues)
    (resourcePdfUrl : string) (t : Z) (w w1 : World) :
  CreateExam.uploadPdf env (pdfFile data) (with_isSubmitting true w)
    = (Ok resourcePdfUrl, w1) →
  parseDate env (startTime data) = Some t →
  let body := CreateExam.examBody data (toISOString env t) resourcePdfUrl in
  CreateExam.onSubmit env data w
  = (Ok tt,
     match post_exams env body with
     | Some _ =>
         with_isSubmitting false
           (with_location "/dashboard"
              (emit (Navigate "/dashboard")
                 (emit (Alert "Exam Created Successfully!")
                    (emit (HttpPost "/exams" (ExamBodyOf body)) w1))))
     | None =>
         with_isSubmitting false
           (emit (Alert "Failed to create exam. Please check your connection.")
              (emit (ConsoleError (LogError (RequestFailed "/exams")))
                 (emit (HttpPost "/exams" (ExamBodyOf body)) w1)))
     end).
Proof.
  intros Hup Ht body.
  unfold CreateExam.onSubmit, CreateExam.setIsSubmitting.
  unfold bind at 1. simpl. unfold finally, try_catch.
  unfold bind at 1. rewrite Hup.
  unfold CreateExam.isoStartTime. rewrite Ht. run.
  fold body. destruct (post_exams env body); reflexivity.
Qed.

Lemma after_exam_request_no_post (target : string) (answer : option unit) :
  posts_to target (after_exam_request answer) = 0.
Proof. destruct answer; reflexivity. Qed.

Lemma posts_to_app (target : string) (a b : list Event) :
  posts_to target (a ++ b) = posts_to target a + posts_to target b.
Proof.
  unfold posts_to. induction a as [|e a IH]; simpl; [reflexivity |].
  destruct (is_post_to target e); simpl; rewrite IH; reflexivity.
Qed.

(** C4 (as the code has it): for every valid exam form that is submitted, the
    start time parses to an instant [t] and the requests are these. With a
    PDF attached, [POST /upload] goes first; if the upload succeeds, exactly
    one [POST /exams] follows whose body carries the title, the batch id,
    the duration as [durationMinutes], the ISO-8601 form of [t], the url the
    upload returned and the questions; if the upload fails, no [POST /exams]
    is issued. With no file attached there is no upload and exactly one
    [POST /exams], with the empty string as [resourcePdfUrl]. *)
Theorem exam_submission_requests (env : Env) (data : ExamFormValues)
    (w : World) :
  CreateExam.examSchema env data = true →
  ∃ (t : Z) (evs : list Event),
    parseDate env (startTime data) = Some t
    ∧ trace (CreateExam.submit env data w).2 = trace w ++ evs
    ∧ let body := fun resourcePdfUrl =>
        {| ExamBody.title := title data;
           ExamBody.batchId := batchId data;
           ExamBody.durationMinutes := duration data;
           ExamBody.startTime := toISOString env t;
           ExamBody.resourcePdfUrl := resourcePdfUrl;
           ExamBody.questions := questions data |} in
      match pdfFile data with
      | Some (f :: _) =>
          match post_upload env f with
          | Some up =>
              evs = [HttpPost "/upload" (UploadBody f);
                     HttpPost "/exams" (ExamBodyOf (body (url up)))]
                    ++ after_exam_request (post_exams env (body (url up)))
              ∧ posts_to "/upload" evs = 1
              ∧ posts_to "/exams" evs = 1
          | None =>
              evs = [HttpPost "/upload" (UploadBody f);
                     ConsoleError (LogError (RequestFailed "/upload"));
                     Alert "Failed to create exam. Please check your connection."]
              ∧ posts_to "/upload" evs = 1
              ∧ posts_to "/exams" evs = 0
          end
      | _ =>
          evs = [HttpPost "/exams" (ExamBodyOf (body ""))]
                ++ after_exam_request (post_exams env (body ""))
          ∧ posts_to "/upload" evs = 0
          ∧ posts_to "/exams" evs = 1
      end.
Proof.
  intros Hacc.
  rewrite (handleSubmit_accepted _ _ _ Hacc : CreateExam.submit env data = _).
  apply examSchema_spec in Hacc.
  destruct Hacc as (_ & _ & (t & Ht & _) & _).
  exists t.
  destruct (pdfFile data) as [[|f rest]|] eqn:Hpdf.
  - (* an empty selection *)
    eexists. split; [exact Ht |].
    rewrite (exam_onSubmit_uploaded env data "" t w (with_isSubmitting true w));
      [| rewrite Hpdf; reflexivity | exact Ht].
    unfold CreateExam.examBody. cbv zeta.
    split; [| split; [reflexivity |]].
    + destruct (post_exams env _); same_trace.
    + split; rewrite posts_to_app, after_exam_request_no_post; reflexivity.
  - (* a file is attached *)
    destruct (post_upload env f) as [up|] eqn:Hup.
    + eexists. split; [exact Ht |].
      rewrite (exam_onSubmit_uploaded env data (url up) t w
                 (emit (HttpPost "/upload" (UploadBody f))
                    (with_isSubmitting true w)));
        [| rewrite Hpdf; apply uploadPdf_done, Hup | exact Ht].
      unfold CreateExam.examBody. cbv zeta.
      split; [| split; [reflexivity |]].
      * destruct (post_exams env _); same_trace.
      * split; rewrite posts_to_app, after_exam_request_no_post; reflexivity.
    + eexists. split; [exact Ht |].
      rewrite (exam_onSubmit_upload_failed env data (RequestFailed "/upload") w
                 (emit (HttpPost "/upload" (UploadBody f))
                    (with_isSubmitting true w)))
        by (rewrite Hpdf; apply uploadPdf_failed, Hup).
      cbv zeta. split; [same_trace | split; [reflexivity |]].
      split; reflexivity.
  - (* no attachment *)
    eexists. split; [exact Ht |].
    rewrite (exam_onSubmit_uploaded env data "" t w (with_isSubmitting true w));
      [| rewrite Hpdf; reflexivity | exact Ht].
    unfold CreateExam.examBody. cbv zeta.
    split; [| split; [reflexivity |]].
    + destruct (post_exams env _); same_trace.
    + split; rewrite posts_to_app, after_exam_request_no_post; reflexivity.
Qed.

Lemma exam_submission_requests_witness :
  ∃ evs,
    trace (CreateExam.submit Sample.env Sample.exam Sample.world).2
      = trace Sample.world ++ evs
    ∧ posts_to "/upload" evs = 1
    ∧ posts_to "/exams" evs = 1.
Proof.
  destruct (exam_submission_requests Sample.env Sample.exam Sample.world
              eq_refl) as (t & evs & _ & Htrace & Hcase).
  exists evs. simpl in Hcase.
  destruct Hcase as (_ & Hupload & Hexams).
  split; [exact Htrace | split; [exact Hupload | exact Hexams]].
Defined.

(** C4 as stated does not hold: a valid form with a PDF attached, submitted
    while the upload is refused, produces no [POST /exams] at all. *)
Lemma exam_not_posted_when_upload_fails :
  CreateExam.examSchema Sample.upload_down Sample.exam = true
  ∧ pdfFile Sample.exam = Some [Sample.paper]
  ∧ posts_to "/exams"
      (trace (CreateExam.submit Sample.upload_down Sample.exam Sample.world).2)
    = 0.
Proof. split; [reflexivity | split; reflexivity]. Qed.

(** ** Failures *)

Lemma fetchBatches_failed (env : Env) (w : World) :
  get_batches env = None →
  Dashboard.fetchBatches env w
  = (Ok tt,
     emit (ConsoleError (LogText "Failed to fetch batches"))
       (emit (HttpGet "/batches") w)).
Proof.
  intros Hget. unfold Dashboard.fetchBatches. run. rewrite Hget. reflexivity.
Qed.


(** C2 (as the code has it): a failed login request ends in the alert
    "Invalid Credentials" and nothing else; a failed exam creation, whether
    the upload or the exam request is refused, ends in a console trace of
    the error followed by the alert "Failed to create exam. Please check
    your connection.", with the submitting flag back to false and nothing
    else; a failed fetch of the batch list, on the dashboard and on the exam
    page, ends in a console trace only, with no alert. *)
Theorem failures_alert_or_console_only (env : Env) (w : World) :
  (∀ data : LoginFormData,
     post_auth_login env data = None →
     Login.onSubmit env data w
     = (Ok tt,
        {| auth := auth w; location := location w; batches := batches w;
           isSubmitting := isSubmitting w;
           trace := trace w ++
             [HttpPost "/auth/login" (LoginBody data);
              Alert "Invalid Credentials"] |}))
  ∧ (∀ (data : ExamFormValues) (f : File) (rest : list File),
       pdfFile data = Some (f :: rest) →
       post_upload env f = None →
       CreateExam.onSubmit env data w
       = (Ok tt,
          {| auth := auth w; location := location w; batches := batches w;
             isSubmitting := false;
             trace := trace w ++
               [HttpPost "/upload" (UploadBody f);
                ConsoleError (LogError (RequestFailed "/upload"));
                Alert "Failed to create exam. Please check your connection."]
          |}))
  ∧ (∀ (data : ExamFormValues) (resourcePdfUrl : string) (t : Z) (w1 : World),
       CreateExam.uploadPdf env (pdfFile data) (with_isSubmitting true w)
         = (Ok resourcePdfUrl, w1) →
       parseDate env (startTime data) = Some t →
       post_exams env
         (CreateExam.examBody data (toISOString env t) resourcePdfUrl) = None →
       CreateExam.onSubmit env data w
       = (Ok tt,
          {| auth := auth w1; location := location w1; batches := batches w1;
             isSubmitting := false;
             trace := trace w1 ++
               [HttpPost "/exams"
                  (ExamBodyOf
                     (CreateExam.examBody data (toISOString env t)
                        resourcePdfUrl));
                ConsoleError (LogError (RequestFailed "/exams"));
                Alert "Failed to create exam. Please check your connection."]
          |}))
  ∧ (get_batches env = None →
       Dashboard.fetchBatches env w
       = (Ok tt,
          {| auth := auth w; location := location w; batches := batches w;
             isSubmitting := isSubmitting w;
             trace := trace w ++
               [HttpGet "/batches";
                ConsoleError (LogText "Failed to fetch batches")] |})
       ∧ CreateExam.loadBatches env w
         = (Ok tt,
            {| auth := auth w; location := location w; batches := batches w;
               isSubmitting := isSubmitting w;
               trace := trace w ++
                 [HttpGet "/batches";
                  ConsoleError (LogError (RequestFailed "/batches"))] |})).
Proof.
  split; [| split; [| split]].
  - intros data Hres. rewrite (login_onSubmit_failed env data w Hres).
    unfold emit. same_trace.
  - intros data f rest Hpdf Hup.
    rewrite (exam_onSubmit_upload_failed env data (RequestFailed "/upload") w
               (emit (HttpPost "/upload" (UploadBody f))
                  (with_isSubmitting true w)))
      by (rewrite Hpdf; apply uploadPdf_failed, Hup).
    unfold emit, with_isSubmitting. same_trace.
  - intros data resourcePdfUrl t w1 Hup Ht Hexam.
    rewrite (exam_onSubmit_uploaded env data resourcePdfUrl t w w1 Hup Ht).
    cbv zeta. rewrite Hexam. unfold emit, with_isSubmitting. same_trace.
  - intros Hget. split.
    + rewrite (fetchBatches_failed env w Hget). unfold emit. same_trace.
    + unfold CreateExam.loadBatches. run. rewrite Hget. same_trace.
Qed.

Lemma failures_alert_or_console_only_witness :
  trace (Login.onSubmit Sample.offline Sample.credentials Sample.world).2
  = [HttpPost "/auth/login" (LoginBody Sample.credentials);
     Alert "Invalid Credentials"]
  ∧ trace (Dashboard.fetchBatches Sample.offline Sample.world).2
    = [HttpGet "/batches"; ConsoleError (LogText "Failed to fetch batches")].
Proof.
  destruct (failures_alert_or_console_only Sample.offline Sample.world)
    as (Hlogin & _ & _ & Hfetch).
  rewrite (Hlogin Sample.credentials eq_refl).
  rewrite (proj1 (Hfetch eq_refl)).
  split; reflexivity.
Defined.

(** C2 as stated does not hold: when the backend refuses [GET /batches],
    the dashboard writes to the console and raises no alert. *)
Lemma failed_batch_fetch_raises_no_alert :
  get_batches Sample.offline = None
  ∧ List.filter is_alert
      (trace (Dashboard.fetchBatches Sample.offline Sample.world).2) = [].
Proof. split; reflexivity. Qed.

(** ** The dashboard *)

(** C8 (as the code has it): when the prompt is cancelled or answered with
    the empty string, the handler issues no request and leaves the batch
    list as it was. Otherwise exactly one [POST /batches] with the entered
    name goes out; when the backend accepts it, a refresh follows (one
    [GET /batches], whose answer becomes the batch list, a refused [GET]
    being reported on the console); when the backend refuses it, no refresh
    request is issued and the batch list stays as it was. *)
Theorem createBatch_requests (env : Env) (w : World) :
  (prompt env Dashboard.promptMessage = None
   ∨ prompt env Dashboard.promptMessage = Some "" →
     (Dashboard.createBatch env w).2
     = {| auth := auth w; location := location w; batches := batches w;
          isSubmitting := isSubmitting w;
          trace := trace w ++ [Prompt Dashboard.promptMessage] |})
  ∧ (∀ name : string,
       prompt env Dashboard.promptMessage = Some name →
       name ≠ "" →
       (∀ created : Batch,
          post_batches env name = Some created →
          trace (Dashboard.createBatch env w).2
          = trace w ++
            [Prompt Dashboard.promptMessage;
             HttpPost "/batches" (BatchBody name);
             HttpGet "/batches"]
            ++ match get_batches env with
               | Some _ => []
               | None => [ConsoleError (LogText "Failed to fetch batches")]
               end
          ∧ batches (Dashboard.createBatch env w).2
            = match get_batches env with
              | Some answer => answer
              | None => batches w
              end)
       ∧ (post_batches env name = None →
          (Dashboard.createBatch env w).2
          = {| auth := auth w; location := location w; batches := batches w;
               isSubmitting := isSubmitting w;
               trace := trace w ++
                 [Prompt Dashboard.promptMessage;
                  HttpPost "/batches" (BatchBody name)] |})).
Proof.
  split.
  - intros [Hp | Hp]; unfold Dashboard.createBatch; run; rewrite Hp;
      reflexivity.
  - intros name Hp Hname.
    split.
    + intros created Hpost.
      unfold Dashboard.createBatch, Dashboard.fetchBatches,
        Dashboard.setBatches. run.
      rewrite Hp. apply String.eqb_neq in Hname. rewrite Hname. simpl.
      rewrite Hpost. simpl.
      destruct (get_batches env) as [answer|]; simpl;
        rewrite <- ?app_assoc; simpl; split; reflexivity.
    + intros Hpost. unfold Dashboard.createBatch. run.
      rewrite Hp. apply String.eqb_neq in Hname. rewrite Hname. simpl.
      rewrite Hpost. same_trace.
Qed.

Lemma createBatch_requests_witness :
  trace (Dashboard.createBatch Sample.env Sample.world).2
  = [Prompt Dashboard.promptMessage;
     HttpPost "/batches" (BatchBody "2026 Revision");
     HttpGet "/batches"]
  ∧ batches (Dashboard.createBatch Sample.env Sample.world).2
    = [Sample.class10]
  ∧ trace (Dashboard.createBatch Sample.cancelling Sample.world).2
    = [Prompt Dashboard.promptMessage].
Proof.
  destruct (createBatch_requests Sample.env Sample.world) as [_ Hnamed].
  destruct (Hnamed "2026 Revision" eq_refl ltac:(discriminate))
    as [Haccepted _].
  destruct (Haccepted Sample.class10 eq_refl) as [Htrace Hbatches].
  destruct (createBatch_requests Sample.cancelling Sample.world)
    as [Hcancel _].
  rewrite (Hcancel (or_introl eq_refl)).
  split; [exact Htrace | split; [exact Hbatches | reflexivity]].
Defined.

(** C8 as stated does not hold: with a name entered and [POST /batches]
    refused, the request is the last thing the handler does; no
    [GET /batches] follows. *)
Lemma no_refresh_after_refused_batch :
  prompt Sample.offline Dashboard.promptMessage = Some "2026 Revision"
  ∧ trace (Dashboard.createBatch Sample.offline Sample.world).2
    = [Prompt Dashboard.promptMessage;
       HttpPost "/batches" (BatchBody "2026 Revision")].
Proof. split; reflexivity. Qed.

(** ** The route guard *)

Lemma has_token_truthy (store : AuthStore.state) :
  AuthStore.has_token store ↔ Js.truthy (AuthStore.token store) = true.
Proof.
  unfold AuthStore.has_token. destruct (AuthStore.token store) as [tok|]; simpl.
  - rewrite negb_true_iff, String.eqb_neq. split.
    + intros (tok' & Heq & Hne). injection Heq as ->. exact Hne.
    + intros Hne. exists tok. auto.
  - split; [intros (tok & Heq & _); discriminate | discriminate].
Qed.

Lemma ProtectedRoute_open (store : AuthStore.state) (children : Router.Element) :
  AuthStore.has_token store → Router.ProtectedRoute store children = children.
Proof.
  intros Htok. unfold Router.ProtectedRoute.
  apply has_token_truthy in Htok. rewrite Htok. reflexivity.
Qed.

Lemma ProtectedRoute_closed (store : AuthStore.state)
    (children : Router.Element) :
  ¬ AuthStore.has_token store →
  Router.ProtectedRoute store children = Router.NavigateTo "/login".
Proof.
  intros Htok. unfold Router.ProtectedRoute.
  rewrite has_token_truthy in Htok. apply not_true_is_false in Htok.
  rewrite Htok. reflexivity.
Qed.

(** The guard tests truthiness: a store that was never logged into, a store
    after [logout], and a store holding the empty string are all turned
    away. *)
Lemma no_token_after_logout (store : AuthStore.state) :
  ¬ AuthStore.has_token (AuthStore.logout store).
Proof. intros (tok & Heq & _). discriminate. Qed.

Lemma empty_string_is_no_token (u : option User) :
  ¬ AuthStore.has_token {| AuthStore.token := Some ""; AuthStore.user := u |}.
Proof. intros (tok & Heq & Hne). injection Heq as <-. congruence. Qed.

(** C5: on the two protected screens, a store without a token makes the
    router answer with a redirect to [/login] (where the login page is
    shown), and a store with a token makes it render the screen's own
    component. A token is a non-empty string: the guard tests the stored
    value for truthiness. *)
Theorem protected_routes_guarded (store : AuthStore.state) :
  (¬ AuthStore.has_token store →
     (∀ children, Router.ProtectedRoute store children
                  = Router.NavigateTo "/login")
     ∧ Router.AppWithCreateExam store "/dashboard" = Router.NavigateTo "/login"
     ∧ Router.AppWithCreateExam store "/create-exam"
       = Router.NavigateTo "/login"
     ∧ Router.App store "/dashboard" = Router.NavigateTo "/login"
     ∧ Router.show (Router.AppWithCreateExam store) 1 "/create-exam"
       = Some ("/login", Router.LoginPage))
  ∧ (AuthStore.has_token store →
     (∀ children, Router.ProtectedRoute store children = children)
     ∧ Router.AppWithCreateExam store "/dashboard"
       = Router.Render Router.DashboardPage
     ∧ Router.AppWithCreateExam store "/create-exam"
       = Router.Render Router.CreateExamPage
     ∧ Router.App store "/dashboard" = Router.Render Router.DashboardPage).
Proof.
  split; intros Htok.
  - pose proof (fun c => ProtectedRoute_closed store c Htok) as Hclosed.
    unfold Router.AppWithCreateExam, Router.App, Router.show. simpl.
    unfold Router.AppWithCreateExam. simpl.
    rewrite !Hclosed. repeat split; auto.
  - pose proof (fun c => ProtectedRoute_open store c Htok) as Hopen.
    unfold Router.AppWithCreateExam, Router.App. simpl.
    rewrite !Hopen. repeat split; auto.
Qed.

Lemma protected_routes_guarded_witness :
  Router.AppWithCreateExam AuthStore.empty "/create-exam"
  = Router.NavigateTo "/login"
  ∧ Router.AppWithCreateExam
      (AuthStore.login "tok-1" Sample.teacher AuthStore.empty) "/create-exam"
    = Router.Render Router.CreateExamPage.
Proof.
  split.
  - apply (proj1 (protected_routes_guarded AuthStore.empty)).
    intros (tok & Heq & _). discriminate.
  - apply (proj2 (protected_routes_guarded
                    (AuthStore.login "tok-1" Sample.teacher AuthStore.empty))).
    exists "tok-1". split; [reflexivity | discriminate].
Defined.

(** ** The question list of the exam form *)

Lemma rendered_remove_needs_two (fields : list Question) (qIndex : nat) :
  CreateExam.rendered fields (CreateExam.RemoveButton qIndex) = true →
  qIndex < length fields ∧ 1 < length fields.
Proof.
  simpl. rewrite andb_true_iff, !Nat.ltb_lt. tauto.
Qed.

Lemma length_append (q : Question) (fields : list Question) :
  length (CreateExam.append q fields) = S (length fields).
Proof. unfold CreateExam.append. rewrite length_app. simpl. lia. Qed.

Lemma length_remove (qIndex : nat) (fields : list Question) :
  qIndex < length fields →
  length (CreateExam.remove qIndex fields) = length fields - 1.
Proof.
  intros Hlt. unfold CreateExam.remove. apply length_delete.
  apply lookup_lt_is_Some_2, Hlt.
Qed.

(** One interaction keeps at least one question. *)
Lemma ui_step_keeps_a_question (d d' : ExamFormValues) :
  CreateExam.ui_step d d' →
  1 ≤ length (questions d) → 1 ≤ length (questions d').
Proof.
  intros Hstep Hone. destruct Hstep as [c d Hrendered].
  destruct c; simpl; try exact Hone;
    try (rewrite length_alter; exact Hone).
  - apply rendered_remove_needs_two in Hrendered as [Hidx Htwo].
    rewrite length_remove by exact Hidx. lia.
  - rewrite length_append. lia.
Qed.

(** One interaction keeps four options in every question, so the option
    inputs always write inside the list they edit. *)
Lemma ui_step_keeps_four_options (d d' : ExamFormValues) :
  CreateExam.ui_step d d' →
  Forall (fun q => length (options q) = 4) (questions d) →
  Forall (fun q => length (options q) = 4) (questions d').
Proof.
  intros Hstep Hfour. destruct Hstep as [c d Hrendered].
  destruct c; simpl; try exact Hfour;
    try (apply Forall_alter; [exact Hfour | intros q _ Hq; simpl; exact Hq]).
  - unfold CreateExam.remove. apply Forall_delete, Hfour.
  - apply Forall_alter; [exact Hfour |].
    intros q _ Hq. simpl. rewrite length_insert. exact Hq.
  - unfold CreateExam.append. apply Forall_app. split; [exact Hfour |].
    constructor; [reflexivity | constructor].
Qed.

Lemma reachable_four_options (d : ExamFormValues) :
  CreateExam.reachable d →
  Forall (fun q => length (options q) = 4) (questions d).
Proof.
  unfold CreateExam.reachable. revert d. apply rtc_ind_r.
  - constructor; [reflexivity | constructor].
  - intros d1 d2 Hprev Hstep IH.
    eapply ui_step_keeps_four_options; eassumption.
Qed.

Lemma play_reachable (cs : list CreateExam.Control) (d d' : ExamFormValues) :
  CreateExam.reachable d →
  CreateExam.play cs d = Some d' →
  CreateExam.reachable d'.
Proof.
  revert d. induction cs as [|c cs IH]; intros d Hreach Hplay; simpl in Hplay.
  - injection Hplay as <-. exact Hreach.
  - destruct (CreateExam.rendered (questions d) c) eqn:Hrendered;
      [| discriminate].
    apply (IH (CreateExam.fire c d)); [| exact Hplay].
    eapply rtc_r; [exact Hreach |]. constructor. exact Hrendered.
Qed.

(** C9: the question list of the exam form is never empty. The form starts
    with exactly one default question; appending makes the list one longer;
    the remove button is on the screen only while the list holds more than
    one question; hence every form reachable by interactions, and every
    replay of a list of interactions, has at least one question. *)
Theorem question_list_never_empty :
  questions CreateExam.defaultValues = [defaultQuestion]
  ∧ (∀ (q : Question) (fields : list Question),
       length (CreateExam.append q fields) = S (length fields))
  ∧ (∀ (fields : list Question) (qIndex : nat),
       CreateExam.rendered fields (CreateExam.RemoveButton qIndex) = true →
       1 < length fields)
  ∧ (∀ d : ExamFormValues,
       CreateExam.reachable d → 1 ≤ length (questions d))
  ∧ (∀ (cs : list CreateExam.Control) (d : ExamFormValues),
       CreateExam.play cs CreateExam.defaultValues = Some d →
       questions d ≠ []).
Proof.
  assert (∀ d, CreateExam.reachable d → 1 ≤ length (questions d)) as Hinv.
  { unfold CreateExam.reachable. apply rtc_ind_r.
    - simpl. lia.
    - intros d1 d2 Hprev Hstep IH.
      eapply ui_step_keeps_a_question; eassumption. }
  split; [reflexivity |].
  split; [exact length_append |].
  split; [intros fields i Hr; apply (rendered_remove_needs_two fields i Hr) |].
  split; [exact Hinv |].
  intros cs d Hplay Hempty.
  assert (CreateExam.reachable d) as Hreach.
  { eapply play_reachable; [apply rtc_refl | exact Hplay]. }
  apply Hinv in Hreach. rewrite Hempty in Hreach. simpl in Hreach. lia.
Qed.

Lemma question_list_never_empty_witness :
  ∃ d, CreateExam.play Sample.clicks CreateExam.defaultValues = Some d
       ∧ questions d ≠ [].
Proof.
  destruct question_list_never_empty as (_ & _ & _ & _ & Hplay).
  eexists. split; [reflexivity |].
  apply (Hplay Sample.clicks). reflexivity.
Defined.

(** * Further properties of the pages *)

(** ** Where the router ends up *)

Lemma show_step (app : string → Router.Element) (fuel : nat) (path : string) :
  Router.show app (S fuel) path
  = match app path with
    | Router.Render p => Some (path, p)
    | Router.NavigateTo to => Router.show app fuel to
    end.
Proof. reflexivity. Qed.

Lemma show_rendered (app : string → Router.Element) (fuel : nat)
    (path : string) (p : Router.Page) :
  app path = Router.Render p → Router.show app fuel path = Some (path, p).
Proof. intros Happ. destruct fuel; simpl; rewrite Happ; reflexivity. Qed.


Lemma App_other (store : AuthStore.state) (path : string) :
  path ≠ "/login" → path ≠ "/dashboard" →
  Router.App store path = Router.NavigateTo "/dashboard".
Proof.
  intros H1 H2. unfold Router.App.
  apply String.eqb_neq in H1, H2. rewrite H1, H2. reflexivity.
Qed.



(** X2: with the routes of [App.tsx], which has no exam-creation route, the
    path the dashboard's "New Exam" button navigates to falls through to the
    catch-all route: a user holding a token is shown the dashboard again,
    at [/dashboard], and a user without one the login page. The button
    itself only changes the location. *)
Theorem new_exam_without_route (store : AuthStore.state) (w : World) :
  Dashboard.newExam w
  = (Ok tt,
     {| auth := auth w; location := "/create-exam"; batches := batches w;
        isSubmitting := isSubmitting w;
        trace := trace w ++ [Navigate "/create-exam"] |})
  ∧ (AuthStore.has_token store →
     Router.show (Router.App store) 2 (location (Dashboard.newExam w).2)
     = Some ("/dashboard", Router.DashboardPage)
     ∧ Router.show (Router.AppWithCreateExam store) 2
         (location (Dashboard.newExam w).2)
       = Some ("/create-exam", Router.CreateExamPage))
  ∧ (¬ AuthStore.has_token store →
     Router.show (Router.App store) 2 (location (Dashboard.newExam w).2)
     = Some ("/login", Router.LoginPage)).
Proof.
  split; [reflexivity |].
  change (location (Dashboard.newExam w).2) with "/create-exam".
  split; intros Htok.
  - pose proof (fun c => ProtectedRoute_open store c Htok) as Hopen.
    split.
    + rewrite show_step, App_other by discriminate.
      apply show_rendered. unfold Router.App. simpl. apply Hopen.
    + apply show_rendered. unfold Router.AppWithCreateExam. simpl.
      apply Hopen.
  - pose proof (fun c => ProtectedRoute_closed store c Htok) as Hclosed.
    rewrite show_step, App_other by discriminate.
    rewrite show_step. unfold Router.App at 1. simpl.
    rewrite Hclosed. reflexivity.
Qed.

Lemma new_exam_without_route_witness :
  Router.show
    (Router.App (AuthStore.login "tok-1" Sample.teacher AuthStore.empty)) 2
    (location (Dashboard.newExam Sample.world).2)
  = Some ("/dashboard", Router.DashboardPage).
Proof.
  destruct (new_exam_without_route
              (AuthStore.login "tok-1" Sample.teacher AuthStore.empty)
              Sample.world) as (_ & Hheld & _).
  apply Hheld. exists "tok-1". split; [reflexivity | discriminate].
Defined.

(** ** The login handler on every answer *)

(** X3: the login handler never rejects: whatever the backend does, it
    resolves after exactly one [POST /auth/login] carrying the form data and
    one further effect. It leaves the batch list and the submitting flag
    alone, and unless the backend answered with a 'TEACHER' user it leaves
    the auth store and the location alone as well. *)
Theorem login_onSubmit_always_resolves (env : Env) (data : LoginFormData)
    (w : World) :
  (Login.onSubmit env data w).1 = Ok tt
  ∧ (∃ last : Event,
       is_request last = false
       ∧ trace (Login.onSubmit env data w).2
         = trace w ++ [HttpPost "/auth/login" (LoginBody data); last])
  ∧ batches (Login.onSubmit env data w).2 = batches w
  ∧ isSubmitting (Login.onSubmit env data w).2 = isSubmitting w
  ∧ ((∀ res, post_auth_login env data = Some res →
             role (user res) ≠ "TEACHER") →
     auth (Login.onSubmit env data w).2 = auth w
     ∧ location (Login.onSubmit env data w).2 = location w).
Proof.
  destruct (post_auth_login env data) as [res|] eqn:Hres.
  - destruct (String.eqb_spec (role (user res)) "TEACHER") as [Hrole | Hrole].
    + rewrite (login_onSubmit_admitted env data res w Hres Hrole).
      split; [reflexivity |].
      split; [exists (Navigate "/dashboard"); split;
                [reflexivity | same_trace] |].
      split; [reflexivity | split; [reflexivity |]].
      intros Hnever. destruct (Hnever res eq_refl Hrole).
    + rewrite (login_onSubmit_denied env data res w Hres Hrole).
      split; [reflexivity |].
      split; [eexists; split; [| apply emit_emit_trace]; reflexivity |].
      repeat split.
  - rewrite (login_onSubmit_failed env data w Hres).
    split; [reflexivity |].
    split; [eexists; split; [| apply emit_emit_trace]; reflexivity |].
    repeat split.
Qed.

Lemma login_onSubmit_always_resolves_witness :
  auth (Login.onSubmit Sample.offline Sample.credentials Sample.world).2
  = AuthStore.empty.
Proof.
  destruct (login_onSubmit_always_resolves Sample.offline Sample.credentials
              Sample.world) as (_ & _ & _ & _ & Hframe).
  apply Hframe. intros res Hres. discriminate Hres.
Defined.

(** X4: what a teacher sees right after a successful login. The handler
    stores the returned token and navigates to [/dashboard]; the guard then
    lets the dashboard through when the returned token is a non-empty
    string, and sends the user back to the login page when the backend
    returned the empty string as token. *)
Theorem login_then_guard (env : Env) (data : LoginFormData)
    (res : LoginResponse) (w : World) :
  post_auth_login env data = Some res →
  role (user res) = "TEACHER" →
  Router.show
    (Router.AppWithCreateExam (auth (Login.onSubmit env data w).2)) 2
    (location (Login.onSubmit env data w).2)
  = Some (if String.eqb (access_token res) ""
          then ("/login", Router.LoginPage)
          else ("/dashboard", Router.DashboardPage)).
Proof.
  intros Hres Hrole.
  rewrite (login_onSubmit_admitted env data res w Hres Hrole).
  change (location _) with "/dashboard".
  rewrite show_step. unfold Router.AppWithCreateExam at 1. simpl.
  unfold Router.ProtectedRoute. simpl.
  destruct (String.eqb (access_token res) ""); reflexivity.
Qed.

Lemma login_then_guard_witness :
  Router.show
    (Router.AppWithCreateExam
       (auth (Login.onSubmit Sample.env Sample.credentials Sample.world).2)) 2
    (location (Login.onSubmit Sample.env Sample.credentials Sample.world).2)
  = Some ("/dashboard", Router.DashboardPage).
Proof.
  exact (login_then_guard Sample.env Sample.credentials
           {| access_token := "tok-1"; user := Sample.teacher |}
           Sample.world eq_refl eq_refl).
Defined.

(** X5: the login form sends nothing but validated credentials: every
    request a submission of the form issues is a [POST /auth/login] whose
    body is the form data unchanged, with an e-mail that passed the format
    check and a password of at least six characters. *)
Theorem login_requests_are_validated (env : Env) (d : LoginFormData)
    (w : World) :
  ∃ evs : list Event,
    trace (Login.submit env d w).2 = trace w ++ evs
    ∧ ∀ e : Event,
        e ∈ evs → is_request e = true →
        e = HttpPost "/auth/login" (LoginBody d)
        ∧ isEmail env (email d) = true
        ∧ 6 ≤ String.length (password d).
Proof.
  destruct (Login.loginSchema env d) eqn:Hschema.
  - unfold Login.submit. rewrite (handleSubmit_accepted _ _ _ Hschema).
    apply loginSchema_spec in Hschema as [Hmail Hpw].
    assert (∃ last, is_request last = false
                    ∧ trace (Login.onSubmit env d w).2
                      = trace w ++ [HttpPost "/auth/login" (LoginBody d); last])
      as (last & Hlast & Htrace).
    { destruct (post_auth_login env d) as [res|] eqn:Hres.
      - destruct (String.eqb_spec (role (user res)) "TEACHER") as [Hr | Hr].
        + rewrite (login_onSubmit_admitted env d res w Hres Hr).
          exists (Navigate "/dashboard"). split; [reflexivity | same_trace].
        + rewrite (login_onSubmit_denied env d res w Hres Hr).
          eexists. split; [| apply emit_emit_trace]. reflexivity.
      - rewrite (login_onSubmit_failed env d w Hres).
        eexists. split; [| apply emit_emit_trace]. reflexivity. }
    eexists. split; [exact Htrace |].
    intros e Hin Hreq.
    apply elem_of_cons in Hin as [-> | Hin]; [auto |].
    apply list_elem_of_singleton in Hin as ->. congruence.
  - exists []. unfold Login.submit.
    rewrite (handleSubmit_rejected _ _ _ w Hschema). simpl.
    split; [rewrite app_nil_r; reflexivity |].
    intros e Hin. apply elem_of_nil in Hin. contradiction.
Qed.

Lemma login_requests_are_validated_witness :
  ∃ evs : list Event,
    trace (Login.submit Sample.env Sample.credentials Sample.world).2
    = trace Sample.world ++ evs
    ∧ ∀ e : Event,
        e ∈ evs → is_request e = true →
        e = HttpPost "/auth/login" (LoginBody Sample.credentials)
        ∧ isEmail Sample.env (email Sample.credentials) = true
        ∧ 6 ≤ String.length (password Sample.credentials).
Proof.
  exact (login_requests_are_validated Sample.env Sample.credentials
           Sample.world).
Defined.

(** ** Loading and creating batches *)





(** X7: batch creation has no error handler of its own. The handler rejects
    exactly when a non-empty name was entered and the backend refused
    [POST /batches], and then with that request's error; a cancelled or
    empty prompt, an accepted request and even a refused refresh all
    resolve. In no case does it touch the auth store, the location or the
    submitting flag, or raise an alert. *)
Theorem createBatch_rejects_iff (env : Env) (w : World) :
  (∀ e : Error,
     (Dashboard.createBatch env w).1 = Throw e
     ↔ e = RequestFailed "/batches"
       ∧ ∃ name, prompt env Dashboard.promptMessage = Some name
                 ∧ name ≠ ""
                 ∧ post_batches env name = None)
  ∧ auth (Dashboard.createBatch env w).2 = auth w
  ∧ location (Dashboard.createBatch env w).2 = location w
  ∧ isSubmitting (Dashboard.createBatch env w).2 = isSubmitting w
  ∧ ∃ evs, trace (Dashboard.createBatch env w).2 = trace w ++ evs
           ∧ List.filter is_alert evs = [].
Proof.
  unfold Dashboard.createBatch, Dashboard.fetchBatches, Dashboard.setBatches.
  run.
  destruct (prompt env Dashboard.promptMessage) as [name|] eqn:Hp; simpl.
  - destruct (String.eqb_spec name "") as [-> | Hname]; simpl.
    + split.
      * intros e. split; [discriminate |].
        intros (_ & name & Heq & Hne & _). injection Heq as <-. congruence.
      * repeat split. eexists. split; reflexivity.
    + destruct (post_batches env name) as [created|] eqn:Hpost; simpl.
      * split.
        -- intros e. split.
           ++ destruct (get_batches env); simpl; discriminate.
           ++ intros (_ & name' & Heq & _ & Hnone). injection Heq as <-.
              congruence.
        -- destruct (get_batches env); simpl; repeat split;
             eexists; (split; [rewrite <- ?app_assoc; simpl; reflexivity |]);
             reflexivity.
      * split.
        -- intros e. split.
           ++ intros [= <-]. split; [reflexivity |]. exists name. auto.
           ++ intros (-> & _). reflexivity.
        -- repeat split. eexists.
           split; [rewrite <- ?app_assoc; simpl; reflexivity |]. reflexivity.
  - split.
    + intros e. split; [discriminate |].
      intros (_ & name & Heq & _). discriminate Heq.
    + repeat split. eexists. split; reflexivity.
Qed.

Lemma createBatch_rejects_iff_witness :
  (Dashboard.createBatch Sample.offline Sample.world).1
  = Throw (RequestFailed "/batches").
Proof.
  destruct (createBatch_rejects_iff Sample.offline Sample.world) as [Hiff _].
  apply Hiff. split; [reflexivity |].
  exists "2026 Revision". split; [reflexivity |].
  split; [discriminate | reflexivity].
Defined.

(** ** The exam handler on every input *)

(** The handler in one piece: the upload step, then the date, then the exam
    request decide which of five endings is taken. *)
Lemma exam_onSubmit_unfold (env : Env) (data : ExamFormValues) (w : World) :
  CreateExam.onSubmit env data w
  = (Ok tt,
     match CreateExam.uploadPdf env (pdfFile data) (with_isSubmitting true w)
     with
     | (Throw e, w1) =>
         with_isSubmitting false
           (emit (Alert "Failed to create exam. Please check your connection.")
              (emit (ConsoleError (LogError e)) w1))
     | (Ok resourcePdfUrl, w1) =>
         match parseDate env (startTime data) with
         | None =>
             with_isSubmitting false
               (emit
                  (Alert "Failed to create exam. Please check your connection.")
                  (emit (ConsoleError (LogError RangeError)) w1))
         | Some t =>
             let body :=
               CreateExam.examBody data (toISOString env t) resourcePdfUrl in
             match post_exams env body with
             | Some _ =>
                 with_isSubmitting false
                   (with_location "/dashboard"
                      (emit (Navigate "/dashboard")
                         (emit (Alert "Exam Created Successfully!")
                            (emit (HttpPost "/exams" (ExamBodyOf body)) w1))))
             | None =>
                 with_isSubmitting false
                   (emit
                      (Alert
                         "Failed to create exam. Please check your connection.")
                      (emit (ConsoleError (LogError (RequestFailed "/exams")))
                         (emit (HttpPost "/exams" (ExamBodyOf body)) w1)))
             end
         end
     end).
Proof.
  destruct (CreateExam.uploadPdf env (pdfFile data) (with_isSubmitting true w))
    as [[resourcePdfUrl | e] w1] eqn:Hup.
  - destruct (parseDate env (startTime data)) as [t|] eqn:Ht.
    + apply (exam_onSubmit_uploaded env data resourcePdfUrl t w w1 Hup Ht).
    + unfold CreateExam.onSubmit, CreateExam.setIsSubmitting.
      unfold bind at 1. simpl. unfold finally, try_catch.
      unfold bind at 1. rewrite Hup.
      unfold CreateExam.isoStartTime. rewrite Ht. reflexivity.
  - apply (exam_onSubmit_upload_failed env data e w w1 Hup).
Qed.

(** Every way the upload step can end. *)
Lemma uploadPdf_cases (env : Env) (files : option (list File)) (w : World) :
  ((files = None ∨ files = Some [])
   ∧ CreateExam.uploadPdf env files w = (Ok "", w))
  ∨ (∃ f rest up,
       files = Some (f :: rest) ∧ post_upload env f = Some up
       ∧ CreateExam.uploadPdf env files w
         = (Ok (url up), emit (HttpPost "/upload" (UploadBody f)) w))
  ∨ (∃ f rest,
       files = Some (f :: rest) ∧ post_upload env f = None
       ∧ CreateExam.uploadPdf env files w
         = (Throw (RequestFailed "/upload"),
            emit (HttpPost "/upload" (UploadBody f)) w)).
Proof.
  destruct files as [[|f rest]|].
  - left. split; [right |]; reflexivity.
  - destruct (post_upload env f) as [up|] eqn:Hup.
    + right. left. exists f, rest, up.
      split; [reflexivity | split; [exact Hup |]].
      apply uploadPdf_done, Hup.
    + right. right. exists f, rest.
      split; [reflexivity | split; [exact Hup |]].
      apply uploadPdf_failed, Hup.
  - left. split; [left |]; reflexivity.
Qed.

(** Membership in a literal list of events. *)
Ltac in_events :=
  repeat (apply elem_of_cons; first [left; reflexivity | right]).

Ltac not_in_events H :=
  repeat (apply elem_of_cons in H as [H | H]; [discriminate H |]);
  apply elem_of_nil in H; exact H.

(** The two steps that follow the upload: the date, then the exam request. *)
Ltac after_upload env data :=
  let t := fresh "t" in
  let Hpost := fresh "Hpost" in
  destruct (parseDate env (startTime data)) as [t|];
  [ cbv zeta;
    match goal with
    | |- context [post_exams env ?b] =>
        destruct (post_exams env b) as [[]|] eqn:Hpost
    end
  | ].

(** One ending of the exam handler against the summary of X8. *)
Ltac exam_ending :=
  repeat split; eexists; (split; [same_trace |]);
  (split; [unfold posts_to; simpl; lia |]);
  (split; [unfold posts_to; simpl; lia |]);
  first
    [ right; repeat split; intros Hin; not_in_events Hin
    | left; split; [reflexivity |]; split; [reflexivity |];
      split; [in_events |];
      eexists; split; [in_events |];
      match goal with
      | H : post_exams _ _ = Some _ |- _ => rewrite H; eexists; reflexivity
      end ].

(** X8: the exam handler never rejects, whatever the form values and the
    backend: it resolves with the submitting flag back to false and with
    the auth store and the batch list untouched, after at most one upload
    and at most one exam request. Either the exam request was accepted, and
    then the success alert is shown and the last effect is the navigation
    to [/dashboard]; or the location is unchanged, the last effect is the
    failure alert, and neither the success alert nor the navigation
    occurs. *)
Theorem exam_onSubmit_always_resolves (env : Env) (data : ExamFormValues)
    (w : World) :
  (CreateExam.onSubmit env data w).1 = Ok tt
  ∧ auth (CreateExam.onSubmit env data w).2 = auth w
  ∧ batches (CreateExam.onSubmit env data w).2 = batches w
  ∧ isSubmitting (CreateExam.onSubmit env data w).2 = false
  ∧ ∃ evs : list Event,
      trace (CreateExam.onSubmit env data w).2 = trace w ++ evs
      ∧ posts_to "/upload" evs ≤ 1
      ∧ posts_to "/exams" evs ≤ 1
      ∧ ((location (CreateExam.onSubmit env data w).2 = "/dashboard"
          ∧ last evs = Some (Navigate "/dashboard")
          ∧ Alert "Exam Created Successfully!" ∈ evs
          ∧ ∃ body, HttpPost "/exams" (ExamBodyOf body) ∈ evs
                    ∧ is_Some (post_exams env body))
         ∨ (location (CreateExam.onSubmit env data w).2 = location w
            ∧ last evs
              = Some
                  (Alert "Failed to create exam. Please check your connection.")
            ∧ (Navigate "/dashboard" ∉ evs)
            ∧ (Alert "Exam Created Successfully!" ∉ evs))).
Proof.
  rewrite exam_onSubmit_unfold.
  destruct (uploadPdf_cases env (pdfFile data) (with_isSubmitting true w))
    as [[_ ->] | [(f & rest & up & _ & _ & ->) | (f & rest & _ & _ & ->)]].
  - after_upload env data; exam_ending.
  - after_upload env data; exam_ending.
  - exam_ending.
Qed.

Lemma exam_onSubmit_uploaded_file (env : Env) (data : ExamFormValues)
    (w : World) :
  ∃ evs : list Event,
    trace (CreateExam.onSubmit env data w).2 = trace w ++ evs
    ∧ ∀ e : Event,
        e ∈ evs → is_request e = true →
        (∃ f rest, pdfFile data = Some (f :: rest)
                   ∧ e = HttpPost "/upload" (UploadBody f))
        ∨ (∃ t resourcePdfUrl,
             parseDate env (startTime data) = Some t
             ∧ e = HttpPost "/exams"
                     (ExamBodyOf
                        (CreateExam.examBody data (toISOString env t)
                           resourcePdfUrl))).
Proof.
  rewrite exam_onSubmit_unfold.
  destruct (uploadPdf_cases env (pdfFile data) (with_isSubmitting true w))
    as [[_ ->] | [(f & rest & up & Hpdf & _ & ->) | (f & rest & Hpdf & _ & ->)]];
    try (destruct (parseDate env (startTime data)) as [t|] eqn:Ht;
         [cbv zeta; destruct (post_exams env _) |]);
    (eexists; split; [same_trace |]);
    intros e Hin Hreq;
    repeat (apply elem_of_cons in Hin as [-> | Hin];
            [first [discriminate Hreq
                   | left; exists f, rest; split; [exact Hpdf | reflexivity]
                   | right; eexists _, _; split; reflexivity] |]);
    apply elem_of_nil in Hin; contradiction.
Qed.

(** The trace of a submission of the form: nothing when the schema refuses
    the values, the handler's otherwise. *)
Lemma exam_submit_trace (env : Env) (d : ExamFormValues) (w : World) :
  (CreateExam.examSchema env d = false
   ∧ trace (CreateExam.submit env d w).2 = trace w ++ [])
  ∨ (CreateExam.examSchema env d = true
     ∧ CreateExam.submit env d w = CreateExam.onSubmit env d w).
Proof.
  destruct (CreateExam.examSchema env d) eqn:Hschema.
  - right. split; [reflexivity |]. unfold CreateExam.submit.
    rewrite (handleSubmit_accepted _ _ _ Hschema). reflexivity.
  - left. split; [reflexivity |]. unfold CreateExam.submit.
    rewrite (handleSubmit_rejected _ _ _ w Hschema). simpl.
    rewrite app_nil_r. reflexivity.
Qed.

(** X9: the exam form uploads nothing but a size-checked file: every
    [POST /upload] a submission of the form issues carries the first file of
    the selection, and that file has at most 5,000,000 bytes. *)
Theorem uploads_are_size_checked (env : Env) (d : ExamFormValues) (w : World) :
  ∃ evs : list Event,
    trace (CreateExam.submit env d w).2 = trace w ++ evs
    ∧ ∀ f : File,
        HttpPost "/upload" (UploadBody f) ∈ evs →
        (∃ rest, pdfFile d = Some (f :: rest)) ∧ (size f ≤ 5000000)%N.
Proof.
  destruct (exam_submit_trace env d w) as [[_ Htrace] | [Hschema ->]].
  - exists []. split; [exact Htrace |].
    intros f Hin. apply elem_of_nil in Hin. contradiction.
  - destruct (exam_onSubmit_uploaded_file env d w) as (evs & Htrace & Hreqs).
    exists evs. split; [exact Htrace |].
    intros f Hin.
    destruct (Hreqs _ Hin eq_refl)
      as [(f' & rest & Hpdf & Heq) | (t & u & _ & Heq)]; [| discriminate Heq].
    injection Heq as <-.
    split; [exists rest; exact Hpdf |].
    apply examSchema_spec in Hschema.
    destruct Hschema as (_ & _ & _ & _ & Hlimit & _).
    rewrite Hpdf in Hlimit. exact Hlimit.
Qed.

Lemma uploads_are_size_checked_witness :
  ∃ evs : list Event,
    trace (CreateExam.submit Sample.env Sample.exam Sample.world).2
    = trace Sample.world ++ evs
    ∧ ∀ f : File,
        HttpPost "/upload" (UploadBody f) ∈ evs →
        (∃ rest, pdfFile Sample.exam = Some (f :: rest))
        ∧ (size f ≤ 5000000)%N.
Proof.
  exact (uploads_are_size_checked Sample.env Sample.exam Sample.world).
Defined.

(** X10: the exam form posts nothing but validated exams: the body of every
    [POST /exams] a submission of the form issues has a title of at least
    three characters, a batch id, a duration of at least 5, the ISO form of
    an instant later than the clock, and at least one question, every
    question being well formed. *)
Theorem posted_exams_are_valid (env : Env) (d : ExamFormValues) (w : World) :
  ∃ evs : list Event,
    trace (CreateExam.submit env d w).2 = trace w ++ evs
    ∧ ∀ body : ExamBody.t,
        HttpPost "/exams" (ExamBodyOf body) ∈ evs →
        3 ≤ String.length (ExamBody.title body)
        ∧ 1 ≤ String.length (ExamBody.batchId body)
        ∧ Spec.at_least 5 (ExamBody.durationMinutes body)
        ∧ (∃ t, (now env < t)%Z
                ∧ ExamBody.startTime body = toISOString env t)
        ∧ 1 ≤ length (ExamBody.questions body)
        ∧ Forall Spec.question_wellformed (ExamBody.questions body).
Proof.
  destruct (exam_submit_trace env d w) as [[_ Htrace] | [Hschema ->]].
  - exists []. split; [exact Htrace |].
    intros body Hin. apply elem_of_nil in Hin. contradiction.
  - destruct (exam_onSubmit_uploaded_file env d w) as (evs & Htrace & Hreqs).
    exists evs. split; [exact Htrace |].
    intros body Hin.
    destruct (Hreqs _ Hin eq_refl)
      as [(f & rest & _ & Heq) | (t & u & Ht & Heq)]; [discriminate Heq |].
    injection Heq as ->. simpl.
    apply examSchema_spec in Hschema.
    destruct Hschema
      as (Htitle & Hbatch & (t' & Ht' & Hlater) & Hdur & _ & Hcount & Hall).
    rewrite Ht in Ht'. injection Ht' as <-.
    repeat split; try assumption. exists t. auto.
Qed.

Lemma posted_exams_are_valid_witness :
  ∃ evs : list Event,
    trace (CreateExam.submit Sample.env Sample.exam Sample.world).2
    = trace Sample.world ++ evs
    ∧ ∀ body : ExamBody.t,
        HttpPost "/exams" (ExamBodyOf body) ∈ evs →
        3 ≤ String.length (ExamBody.title body)
        ∧ 1 ≤ String.length (ExamBody.batchId body)
        ∧ Spec.at_least 5 (ExamBody.durationMinutes body)
        ∧ (∃ t, (now Sample.env < t)%Z
                ∧ ExamBody.startTime body = toISOString Sample.env t)
        ∧ 1 ≤ length (ExamBody.questions body)
        ∧ Forall Spec.question_wellformed (ExamBody.questions body).
Proof.
  exact (posted_exams_are_valid Sample.env Sample.exam Sample.world).
Defined.

(** X11: the handler converts the start time only after the upload. Called
    with a start time that does not parse, it issues no [POST /exams], logs
    the [RangeError] and shows the failure alert; a file that was attached
    has been uploaded by then. The form never lets this happen: its schema
    refuses such values and nothing is sent. *)
Theorem exam_onSubmit_unparsable_start (env : Env) (data : ExamFormValues)
    (w : World) :
  parseDate env (startTime data) = None →
  CreateExam.submit env data w = (Ok tt, w)
  ∧ ∃ evs : list Event,
      trace (CreateExam.onSubmit env data w).2 = trace w ++ evs
      ∧ posts_to "/exams" evs = 0
      ∧ (pdfFile data = None ∨ pdfFile data = Some [] →
         evs = [ConsoleError (LogError RangeError);
                Alert "Failed to create exam. Please check your connection."])
      ∧ (∀ f rest up,
           pdfFile data = Some (f :: rest) →
           post_upload env f = Some up →
           evs = [HttpPost "/upload" (UploadBody f);
                  ConsoleError (LogError RangeError);
                  Alert "Failed to create exam. Please check your connection."]).
Proof.
  intros Ht. split.
  - apply handleSubmit_rejected, not_true_is_false.
    rewrite examSchema_spec.
    intros (_ & _ & (t & Hsome & _) & _). congruence.
  - rewrite exam_onSubmit_unfold, Ht.
    destruct (uploadPdf_cases env (pdfFile data) (with_isSubmitting true w))
      as [[Hpdf ->] | [(f & rest & up & Hpdf & Hup & ->)
                      | (f & rest & Hpdf & Hup & ->)]];
      (eexists; split; [same_trace |]); (split; [reflexivity |]); split.
    + reflexivity.
    + intros f rest up Hsome. destruct Hpdf as [Hpdf | Hpdf]; congruence.
    + intros [Hnone | Hnone]; congruence.
    + intros f' rest' up' Hsome _. congruence.
    + intros [Hnone | Hnone]; congruence.
    + intros f' rest' up' Hsome Hup'. congruence.
Qed.

Lemma exam_onSubmit_unparsable_start_witness :
  ∃ evs : list Event,
    trace
      (CreateExam.onSubmit Sample.env
         {| title := "Unit 5"; batchId := "b1"; startTime := "tomorrow";
            duration := Js.of_Z 60; pdfFile := Some [Sample.paper];
            questions := [Sample.question] |} Sample.world).2
    = trace Sample.world ++ evs
    ∧ posts_to "/upload" evs = 1
    ∧ posts_to "/exams" evs = 0.
Proof.
  destruct (exam_onSubmit_unparsable_start Sample.env
              {| title := "Unit 5"; batchId := "b1"; startTime := "tomorrow";
                 duration := Js.of_Z 60; pdfFile := Some [Sample.paper];
                 questions := [Sample.question] |} Sample.world eq_refl)
    as (_ & evs & Htrace & Hexams & _ & Hfile).
  exists evs. split; [exact Htrace |]. split; [| exact Hexams].
  rewrite (Hfile Sample.paper [] {| url := "https://files/paper.pdf" |}
             eq_refl eq_refl).
  reflexivity.
Defined.

(** ** The form state under interactions *)

Lemma reachable_has_question (d : ExamFormValues) :
  CreateExam.reachable d → 1 ≤ length (questions d).
Proof.
  unfold CreateExam.reachable. revert d. apply rtc_ind_r.
  - simpl. lia.
  - intros d1 d2 Hprev Hstep IH.
    eapply ui_step_keeps_a_question; eassumption.
Qed.

Lemma options_check_fails (l : list string) :
  Zod.array (Zod.string_min 1) l = false ↔ "" ∈ l.
Proof.
  unfold Zod.array. induction l as [|o l IH]; simpl.
  - rewrite elem_of_nil. split; [discriminate | tauto].
  - rewrite elem_of_cons. destruct o as [|c o]; simpl.
    + split; auto.
    + rewrite IH. split; [auto | intros [Heq | Hin]; [discriminate | exact Hin]].
Qed.

(** X12: in every form the interactions can produce, each question has
    exactly four options. The "All 4 options are required." check of such a
    form can therefore fail for one reason only: an option left empty. *)
Theorem reachable_questions_have_four_options (d : ExamFormValues)
    (q : Question) :
  CreateExam.reachable d →
  q ∈ questions d →
  length (options q) = 4
  ∧ (Zod.array_length (Zod.string_min 1) 4 (options q) = false
     ↔ "" ∈ options q).
Proof.
  intros Hreach Hin.
  pose proof (reachable_four_options d Hreach) as Hfour.
  rewrite Forall_forall in Hfour. specialize (Hfour q Hin).
  split; [exact Hfour |].
  unfold Zod.array_length. rewrite Hfour, andb_true_r.
  apply options_check_fails.
Qed.

Lemma reachable_questions_have_four_options_witness :
  ∃ d, CreateExam.play Sample.clicks CreateExam.defaultValues = Some d
       ∧ ∀ q, q ∈ questions d → length (options q) = 4.
Proof.
  eexists. split; [reflexivity |].
  intros q Hin.
  refine (proj1 (reachable_questions_have_four_options _ q _ Hin)).
  apply (play_reachable Sample.clicks CreateExam.defaultValues);
    [apply rtc_refl | reflexivity].
Defined.

Lemma ui_step_keeps_index (d d' : ExamFormValues) :
  CreateExam.ui_step d d' →
  Forall (fun q => ∃ k, k < 4 ∧ correctIndex q = Js.of_Z (Z.of_nat k))
    (questions d) →
  Forall (fun q => ∃ k, k < 4 ∧ correctIndex q = Js.of_Z (Z.of_nat k))
    (questions d').
Proof.
  intros Hstep Hidx. destruct Hstep as [c d Hrendered].
  destruct c; simpl; try exact Hidx;
    try (apply Forall_alter; [exact Hidx | intros q _ Hq; simpl; exact Hq]).
  - unfold CreateExam.remove. apply Forall_delete, Hidx.
  - apply Forall_alter; [exact Hidx |].
    intros q _ _. simpl. exists oIndex. split; [| reflexivity].
    simpl in Hrendered. apply andb_true_iff in Hrendered as [_ Hlt].
    apply Nat.ltb_lt, Hlt.
  - unfold CreateExam.append. apply Forall_app. split; [exact Hidx |].
    constructor; [| constructor]. exists 0. split; [lia | reflexivity].
Qed.

Lemma reachable_index (d : ExamFormValues) :
  CreateExam.reachable d →
  Forall (fun q => ∃ k, k < 4 ∧ correctIndex q = Js.of_Z (Z.of_nat k))
    (questions d).
Proof.
  unfold CreateExam.reachable. revert d. apply rtc_ind_r.
  - constructor; [| constructor]. exists 0. split; [lia | reflexivity].
  - intros d1 d2 Hprev Hstep IH. eapply ui_step_keeps_index; eassumption.
Qed.

Lemma index_check_passes (k : nat) :
  k < 4 →
  Zod.number_min 0 (Js.of_Z (Z.of_nat k))
  && Zod.number_max 3 (Js.of_Z (Z.of_nat k)) = true.
Proof.
  intros Hlt.
  destruct k as [|[|[|[|k]]]]; [reflexivity .. | lia].
Qed.

(** X13: in every form the interactions can produce, the correct-option
    index of each question is one of the integers 0, 1, 2, 3 (the default,
    or the value of one of the four radio buttons), so the [min(0).max(3)]
    check of the schema never fails for such a form. *)
Theorem reachable_index_in_range (d : ExamFormValues) (q : Question) :
  CreateExam.reachable d →
  q ∈ questions d →
  (∃ k, k < 4 ∧ correctIndex q = Js.of_Z (Z.of_nat k))
  ∧ Zod.number_min 0 (correctIndex q) && Zod.number_max 3 (correctIndex q)
    = true.
Proof.
  intros Hreach Hin.
  pose proof (reachable_index d Hreach) as Hidx.
  rewrite Forall_forall in Hidx.
  destruct (Hidx q Hin) as (k & Hlt & Heq).
  split; [exists k; auto |].
  rewrite Heq. apply index_check_passes, Hlt.
Qed.

Lemma reachable_index_in_range_witness :
  ∃ d, CreateExam.play Sample.clicks CreateExam.defaultValues = Some d
       ∧ ∀ q, q ∈ questions d →
              Zod.number_min 0 (correctIndex q)
              && Zod.number_max 3 (correctIndex q) = true.
Proof.
  eexists. split; [reflexivity |].
  intros q Hin.
  refine (proj2 (reachable_index_in_range _ q _ Hin)).
  apply (play_reachable Sample.clicks CreateExam.defaultValues);
    [apply rtc_refl | reflexivity].
Defined.

(** X14: adding a question and removing it again gives the form back: from
    every form the interactions can produce, "Add Question" followed by the
    remove button of the new last question is a possible pair of
    interactions, and it ends in the form it started from. *)
Theorem add_then_remove_restores (d : ExamFormValues) :
  CreateExam.reachable d →
  CreateExam.play
    [CreateExam.AddQuestionButton;
     CreateExam.RemoveButton (length (questions d))] d
  = Some d.
Proof.
  intros Hreach. apply reachable_has_question in Hreach.
  destruct d as [ti bi st du pf qs]. simpl in *.
  unfold CreateExam.append. rewrite length_app. simpl.
  replace (length qs <? length qs + 1) with true
    by (symmetry; apply Nat.ltb_lt; lia).
  replace (1 <? length qs + 1) with true
    by (symmetry; apply Nat.ltb_lt; lia).
  simpl. unfold CreateExam.set_questions, CreateExam.remove. simpl.
  rewrite (delete_middle qs [] defaultQuestion), app_nil_r. reflexivity.
Qed.

Lemma add_then_remove_restores_witness :
  CreateExam.play
    [CreateExam.AddQuestionButton; CreateExam.RemoveButton 1]
    CreateExam.defaultValues
  = Some CreateExam.defaultValues.
Proof.
  exact (add_then_remove_restores CreateExam.defaultValues (rtc_refl _ _)).
Defined.

(** X15: the inputs of a question block edit that question only: using one
    of them keeps the number of questions, every other question, and the
    title, batch, start time, duration and attachment of the form. *)
Theorem question_inputs_edit_in_place (c : CreateExam.Control)
    (qIndex : nat) (d : ExamFormValues) :
  CreateExam.edited c = Some qIndex →
  length (questions (CreateExam.fire c d)) = length (questions d)
  ∧ (∀ j, j ≠ qIndex →
          questions (CreateExam.fire c d) !! j = questions d !! j)
  ∧ title (CreateExam.fire c d) = title d
  ∧ batchId (CreateExam.fire c d) = batchId d
  ∧ startTime (CreateExam.fire c d) = startTime d
  ∧ duration (CreateExam.fire c d) = duration d
  ∧ pdfFile (CreateExam.fire c d) = pdfFile d.
Proof.
  intros Hedit.
  destruct c; simpl in Hedit; try discriminate Hedit;
    injection Hedit as ->; simpl;
    (split; [apply length_alter |]);
    (split; [intros j Hne; apply list_lookup_alter_ne; congruence |]);
    repeat split.
Qed.

Lemma question_inputs_edit_in_place_witness :
  questions
    (CreateExam.fire (CreateExam.QuestionTextInput 1 "changed")
       {| title := "t"; batchId := "b"; startTime := ""; duration := Js.NaN;
          pdfFile := None; questions := [Sample.question; defaultQuestion] |})
  !! 0
  = Some Sample.question.
Proof.
  destruct (question_inputs_edit_in_place
              (CreateExam.QuestionTextInput 1 "changed") 1
              {| title := "t"; batchId := "b"; startTime := "";
                 duration := Js.NaN; pdfFile := None;
                 questions := [Sample.question; defaultQuestion] |} eq_refl)
    as (_ & Hothers & _).
  rewrite (Hothers 0) by lia. reflexivity.
Defined.

(** X16: a question that is not filled in blocks the submission: a form
    with a question whose text is empty, or one of whose options is empty,
    is refused by the schema whatever the other values are. In particular
    the form is never valid right after "Add Question". *)
Theorem unfilled_question_blocks_submission (env : Env) (d : ExamFormValues) :
  (∀ q, q ∈ questions d → text q = "" ∨ "" ∈ options q →
        CreateExam.examSchema env d = false
        ∧ ∀ w, CreateExam.submit env d w = (Ok tt, w))
  ∧ CreateExam.examSchema env
      (CreateExam.fire CreateExam.AddQuestionButton d) = false.
Proof.
  assert (∀ d' q, q ∈ questions d' → text q = "" ∨ "" ∈ options q →
                  CreateExam.examSchema env d' = false) as Hblocked.
  { intros d' q Hin Hempty. apply not_true_is_false.
    rewrite examSchema_spec. intros (_ & _ & _ & _ & _ & _ & Hall).
    rewrite Forall_forall in Hall.
    destruct (Hall q Hin) as (Htext & _ & Hopts & _).
    destruct Hempty as [Hempty | Hempty]; [exact (Htext Hempty) |].
    rewrite Forall_forall in Hopts. exact (Hopts "" Hempty eq_refl). }
  split.
  - intros q Hin Hempty.
    pose proof (Hblocked d q Hin Hempty) as Hrej.
    split; [exact Hrej |].
    intros w. apply handleSubmit_rejected, Hrej.
  - apply (Hblocked _ defaultQuestion); [| left; reflexivity].
    simpl. unfold CreateExam.append. apply elem_of_app. right.
    apply list_elem_of_here.
Qed.

Lemma unfilled_question_blocks_submission_witness :
  CreateExam.examSchema Sample.env
    {| title := "Unit 5"; batchId := "b1"; startTime := "2030-01-01T10:00";
       duration := Js.of_Z 60; pdfFile := None;
       questions := [Sample.question; defaultQuestion] |} = false.
Proof.
  destruct (unfilled_question_blocks_submission Sample.env
              {| title := "Unit 5"; batchId := "b1";
                 startTime := "2030-01-01T10:00"; duration := Js.of_Z 60;
                 pdfFile := None;
                 questions := [Sample.question; defaultQuestion] |})
    as [Hblocked _].
  apply (Hblocked defaultQuestion).
  - apply list_elem_of_further, list_elem_of_here.
  - left. reflexivity.
Defined.

(** ** What the user is told when the form is refused *)

Lemma shown_nil (passed : bool) (m : CreateExam.Message) :
  CreateExam.shown passed m = [] ↔ passed = true.
Proof. destruct passed; simpl; split; congruence. Qed.

Lemma questionErrors_nil (q : Question) :
  CreateExam.questionErrors q = []
  ↔ Zod.string_min 1 (text q) = true
    ∧ Zod.array_length (Zod.string_min 1) 4 (options q) = true
    ∧ Zod.number_min 1 (marks q) = true.
Proof.
  unfold CreateExam.questionErrors.
  rewrite !app_nil, !shown_nil. reflexivity.
Qed.

Lemma flat_map_nil {A B} (f : A → list B) (l : list A) :
  flat_map f l = [] ↔ Forall (fun a => f a = []) l.
Proof.
  induction l as [|a l IH]; simpl.
  - split; [constructor | reflexivity].
  - rewrite app_nil, Forall_cons, IH. reflexivity.
Qed.

Lemma shownErrors_nil (env : Env) (d : ExamFormValues) :
  CreateExam.shownErrors env d = []
  ↔ Zod.string_min 3 (title d) = true
    ∧ Zod.string_min 1 (batchId d) = true
    ∧ CreateExam.startTime_refine env (startTime d) = true
    ∧ Zod.number_min 5 (duration d) = true
    ∧ CreateExam.pdfFile_refine (pdfFile d) = true
    ∧ Forall (fun q => CreateExam.questionErrors q = []) (questions d).
Proof.
  unfold CreateExam.shownErrors.
  rewrite !app_nil, !shown_nil, flat_map_nil. reflexivity.
Qed.

(** X17: a form the interactions can produce is never refused silently. An
    accepted form shows no error message; a form reachable by interactions
    that the schema refuses shows at least one. The two checks that have no
    message on the page, the minimum of one question and the range of the
    correct-option index, cannot fail for such a form; a form without any
    question, which only a caller that bypasses the page can build, is
    refused even when no message is shown. *)
Theorem no_silent_rejection (env : Env) (d : ExamFormValues) :
  (CreateExam.examSchema env d = true → CreateExam.shownErrors env d = [])
  ∧ (CreateExam.reachable d →
     CreateExam.examSchema env d = false →
     CreateExam.shownErrors env d ≠ [])
  ∧ (questions d = [] →
     CreateExam.examSchema env d = false
     ∧ (CreateExam.shownErrors env d = []
        ↔ Zod.string_min 3 (title d) = true
          ∧ Zod.string_min 1 (batchId d) = true
          ∧ CreateExam.startTime_refine env (startTime d) = true
          ∧ Zod.number_min 5 (duration d) = true
          ∧ CreateExam.pdfFile_refine (pdfFile d) = true)).
Proof.
  split; [| split].
  - intros Hacc. apply shownErrors_nil.
    unfold CreateExam.examSchema, Zod.array_min in Hacc.
    rewrite !andb_true_iff in Hacc.
    destruct Hacc as (((((Ht & Hb) & Hs) & Hd) & Hp) & Hqs & _).
    repeat (split; [assumption |]).
    unfold Zod.array in Hqs. rewrite forallb_forall in Hqs.
    apply Forall_forall. intros q Hin.
    apply list_elem_of_In, Hqs in Hin.
    unfold CreateExam.questionSchema in Hin. rewrite !andb_true_iff in Hin.
    apply questionErrors_nil. tauto.
  - intros Hreach Hrej Hnone.
    apply shownErrors_nil in Hnone
      as (Ht & Hb & Hs & Hd & Hp & Hqs).
    pose proof (reachable_has_question d Hreach) as Hcount.
    pose proof (reachable_index d Hreach) as Hidx.
    assert (CreateExam.examSchema env d = true) as Hacc; [| congruence].
    unfold CreateExam.examSchema, Zod.array_min.
    rewrite Ht, Hb, Hs, Hd, Hp. cbn [andb].
    apply andb_true_iff. split; [| apply Nat.leb_le, Hcount].
    unfold Zod.array. apply forallb_forall. intros q Hin.
    apply list_elem_of_In in Hin.
    rewrite Forall_forall in Hqs, Hidx.
    destruct (proj1 (questionErrors_nil q) (Hqs q Hin))
      as (Htext & Hopts & Hmarks).
    destruct (Hidx q Hin) as (k & Hlt & Heq).
    unfold CreateExam.questionSchema.
    rewrite Htext, Hopts, Hmarks, Heq, (index_check_passes k Hlt).
    reflexivity.
  - intros Hnone. split.
    + unfold CreateExam.examSchema, Zod.array_min. rewrite Hnone. simpl.
      rewrite !andb_false_r. reflexivity.
    + rewrite shownErrors_nil, Hnone. split.
      * intros (Ht & Hb & Hs & Hd & Hp & _). auto.
      * intros (Ht & Hb & Hs & Hd & Hp). repeat (split; [assumption |]).
        constructor.
Qed.

Lemma no_silent_rejection_witness :
  CreateExam.shownErrors Sample.env CreateExam.defaultValues ≠ []
  ∧ CreateExam.shownErrors Sample.env Sample.exam = []
  ∧ CreateExam.examSchema Sample.env
      {| title := "Unit 5"; batchId := "b1"; startTime := "2030-01-01T10:00";
         duration := Js.of_Z 60; pdfFile := None; questions := [] |} = false.
Proof.
  split; [| split].
  - apply (proj1 (proj2 (no_silent_rejection Sample.env
                           CreateExam.defaultValues)));
      [apply rtc_refl | reflexivity].
  - apply (proj1 (no_silent_rejection Sample.env Sample.exam)). reflexivity.
  - apply (proj2 (proj2 (no_silent_rejection Sample.env
                           {| title := "Unit 5"; batchId := "b1";
                              startTime := "2030-01-01T10:00";
                              duration := Js.of_Z 60; pdfFile := None;
                              questions := [] |}))).
    reflexivity.
Defined.

Example valid_fields_without_question_show_nothing :
  CreateExam.shownErrors Sample.env
    {| title := "Unit 5"; batchId := "b1"; startTime := "2030-01-01T10:00";
       duration := Js.of_Z 60; pdfFile := None; questions := [] |} = [].
Proof. reflexivity. Qed.

Example untouched_form_messages :
  CreateExam.shownErrors Sample.env CreateExam.defaultValues
  = [CreateExam.Text "Title must be at least 3 characters";
     CreateExam.Text "Please select a batch";
     CreateExam.Text "Start time must be in the future";
     CreateExam.Text "Question text is required";
     CreateExam.Text "All 4 options are required."].
Proof. reflexivity. Qed.
